(** * mongoc_common: the Sphinx extension of the mongo-c-driver documentation

    A shallow embedding of [build/sphinx/mongoc_common.py] and the
    properties of its four utilities: the man-page collector, the
    analytics injector, the [versionlist] directive and the generator of
    HTML redirects.

    Python [str] values are modelled as [string]; an [ascii] stands for the
    code point of the same number, so the model covers text whose code
    points are below 256.  Python dictionaries ([context], [os.environ])
    are [gmap]s with string keys. *)

From Stdlib Require Import Ascii String.
From stdpp Require Import base option list strings gmap.

Local Open Scope string_scope.

(** ** Characters and strings *)

Module Str.

Definition code (c : ascii) : nat := nat_of_ascii c.

(** The line boundaries of [str.splitlines]: LF, VT, FF, CR, FS, GS, RS
    and NEL (CR LF counts once, see [splitlines_go]). *)
Definition is_linebreak (c : ascii) : bool :=
  let n := code c in
  (((10 <=? n) && (n <=? 13)) || ((28 <=? n) && (n <=? 30))
   || (n =? 133))%nat.

(** What [\s] matches in a [str] pattern: the white space of Unicode. *)
Definition is_space (c : ascii) : bool :=
  let n := code c in
  (((9 <=? n) && (n <=? 13)) || ((28 <=? n) && (n <=? 32))
   || (n =? 133) || (n =? 160))%nat.

(** What [.] matches without [re.DOTALL]: everything but LF. *)
Definition is_dot (c : ascii) : bool := negb (code c =? 10)%nat.

Definition rev (s : string) : string :=
  string_of_list_ascii (List.rev (list_ascii_of_string s)).

(** [str.splitlines()]: [cur] holds the current line backwards.
    Text after the last boundary is a line of its own; an empty rest is
    not. *)
Fixpoint splitlines_go (s : string) (cur : string) : list string :=
  match s with
  | EmptyString =>
      match cur with
      | EmptyString => []
      | _ => [rev cur]
      end
  | String c s' =>
      if is_linebreak c then
        match s' with
        | String c' s'' =>
            if ((code c =? 13) && (code c' =? 10))%nat
            then rev cur :: splitlines_go s'' EmptyString
            else rev cur :: splitlines_go s' EmptyString
        | EmptyString => [rev cur]
        end
      else splitlines_go s' (String c cur)
  end.

Definition splitlines (s : string) : list string :=
  splitlines_go s EmptyString.

(** [s.startswith(p)], returning what follows the prefix. *)
Fixpoint strip_prefix (p s : string) : option string :=
  match p, s with
  | EmptyString, _ => Some s
  | String a p', String b s' =>
      if Ascii.eqb a b then strip_prefix p' s' else None
  | String _ _, EmptyString => None
  end.

Definition startswith (s p : string) : bool :=
  match strip_prefix p s with Some _ => true | None => false end.

Definition endswith (s p : string) : bool :=
  startswith (rev s) (rev p).

(** The longest prefix whose characters satisfy [f]. *)
Fixpoint take_while (f : ascii -> bool) (s : string) : string :=
  match s with
  | String c s' => if f c then String c (take_while f s') else EmptyString
  | EmptyString => EmptyString
  end.

(** Every character satisfies [f]. *)
Fixpoint all_chars (f : ascii -> bool) (s : string) : bool :=
  match s with
  | String c s' => f c && all_chars f s'
  | EmptyString => true
  end.

(** No path separator. *)
Definition no_slash (c : ascii) : bool := negb (Ascii.eqb c "/").

(** [str.upper()] on the letters of ASCII. *)
Definition upper_char (c : ascii) : ascii :=
  let n := code c in
  if ((97 <=? n) && (n <=? 122))%nat then ascii_of_nat (n - 32) else c.

Fixpoint upper (s : string) : string :=
  match s with
  | String c s' => String (upper_char c) (upper s')
  | EmptyString => EmptyString
  end.

(** [s.split(sep)] for a one-character separator; [cur] is the current
    field backwards.  The result is never empty. *)
Fixpoint split_go (sep : ascii) (s : string) (cur : string) : list string :=
  match s with
  | EmptyString => [rev cur]
  | String c s' =>
      if Ascii.eqb c sep then rev cur :: split_go sep s' EmptyString
      else split_go sep s' (String c cur)
  end.

Definition split (sep : ascii) (s : string) : list string :=
  split_go sep s EmptyString.

(** [s.rfind(c)] *)
Fixpoint rfind_go (c : ascii) (s : string) (i : nat) (last : option nat)
  : option nat :=
  match s with
  | EmptyString => last
  | String a s' =>
      rfind_go c s' (S i) (if Ascii.eqb a c then Some i else last)
  end.

Definition rfind (c : ascii) (s : string) : option nat :=
  rfind_go c s 0 None.

(** [s[i:]] *)
Fixpoint drop (i : nat) (s : string) : string :=
  match i, s with
  | 0, _ => s
  | S i', String _ s' => drop i' s'
  | S _, EmptyString => EmptyString
  end.

(** [sep.join(parts)] *)
Fixpoint join (sep : string) (l : list string) : string :=
  match l with
  | [] => EmptyString
  | [x] => x
  | x :: l' => x +:+ sep +:+ join sep l'
  end.

End Str.

(** ** The [:man_page:] front matter *)

(** [re.match(r":man_page:\s+(.+)", line)], returning group 1.  [re.match]
    anchors the pattern at the first character of the line.  [\s+] is
    greedy and gives characters back one at a time until [(.+)] finds a
    character to start on; [(.+)] then runs to the next LF or to the
    end of the line. *)
Module Re.

(** [(.+)] from here *)
Definition group_dot_plus (s : string) : option string :=
  match Str.take_while Str.is_dot s with
  | EmptyString => None
  | g => Some g
  end.

(** the rest of [\s+], one white space character being consumed *)
Fixpoint space_plus_then_group (s : string) : option string :=
  match s with
  | String c s' =>
      match (if Str.is_space c then space_plus_then_group s' else None) with
      | Some g => Some g
      | None => group_dot_plus s
      end
  | EmptyString => None
  end.

Definition match_man_page (line : string) : option string :=
  match Str.strip_prefix ":man_page:" line with
  | Some (String c s) =>
      if Str.is_space c then space_plus_then_group s else None
  | _ => None
  end.

End Re.

(** The [for] loop of [_file_man_page_name] over the lines; falling off
    the end of the function returns [None]. *)
Fixpoint first_man_page (lines : list string) : option string :=
  match lines with
  | [] => None
  | line :: rest =>
      match Re.match_man_page line with
      | None => first_man_page rest
      | Some g => Some g
      end
  end.

(** ** Python values, exceptions and the state of a build *)

(** The values of a render context ([dict[str, Any]]) that the model
    covers: strings, integers and [None].  For these, [+] with a string
    is concatenation on a string and [TypeError] otherwise.  An object
    with an addition of its own is not among them. *)
Inductive PyVal : Type :=
  | PyStr (s : string)
  | PyInt (n : Z)
  | PyNone.

Inductive PyExc : Type :=
  | AssertionError
  | IndexError
  | TypeError
  | OSError
  | RecursionError.

(** [pathlib.PurePosixPath]: the root (empty, ["/"] or ["//"]) and the
    components, none of which is empty or ["."]. *)
Record Path : Type := mkPath { root : string; parts : list string }.

Global Instance Path_eq_dec : EqDecision Path.
Proof. solve_decision. Defined.

Global Instance Path_countable : Countable Path.
Proof.
  apply (inj_countable' (fun p => (root p, parts p))
                        (fun rp => mkPath rp.1 rp.2)).
  by intros [].
Defined.

Module PathOps.

Fixpoint leading_slashes (s : string) : nat :=
  match s with
  | String c s' => if Ascii.eqb c "/" then S (leading_slashes s') else 0
  | EmptyString => 0
  end.

Definition parse_root (s : string) : string :=
  match leading_slashes s with
  | 0 => EmptyString
  | 2 => "//"
  | _ => "/"
  end.

Definition is_component (c : string) : bool :=
  negb (String.eqb c EmptyString) && negb (String.eqb c ".").

(** [Path(s)] *)
Definition of_str (s : string) : Path :=
  mkPath (parse_root s) (List.filter is_component (Str.split "/" s)).

(** [str(p)] *)
Definition to_str (p : Path) : string :=
  match root p, parts p with
  | EmptyString, [] => "."
  | r, ps => r +:+ Str.join "/" ps
  end.

(** [p.name] *)
Definition name (p : Path) : string := List.last (parts p) EmptyString.

(** [p.parent] *)
Definition parent (p : Path) : Path :=
  mkPath (root p) (List.removelast (parts p)).

(** [p / s] *)
Definition div (p : Path) (s : string) : Path :=
  let q := of_str s in
  match root q with
  | EmptyString => mkPath (root p) (parts p ++ parts q)
  | _ => q
  end.

(** [p.suffix]: from the last dot of the name, unless that dot is the
    first or the last character of the name. *)
Definition suffix (p : Path) : string :=
  let n := name p in
  match Str.rfind "." n with
  | Some i =>
      if ((0 <? i) && (i <? String.length n - 1))%nat
      then Str.drop i n else EmptyString
  | None => EmptyString
  end.

(** [q] lies below the directory [d], at any depth. *)
Definition below (d q : Path) : bool :=
  String.eqb (root d) (root q)
  && bool_decide (parts d `prefix_of` parts q)
  && negb (bool_decide (parts d = parts q)).

End PathOps.

Inductive FsEntry : Type :=
  | RegularFile (text : string)
  | Directory.

(** A man_pages entry: (docname, name, description, authors, section). *)
Definition ManPage : Type := string * string * string * list string * Z.

(** One call of the builder that wrote a page. *)
Record PageWrite : Type := mkPageWrite {
  pw_pagename : string;
  pw_context : gmap string PyVal;
  pw_templatename : string;
  pw_outfilename : string
}.

(** What the module reads and changes during a build. *)
Record World : Type := mkWorld {
  fs : gmap Path FsEntry;            (* the files *)
  environ : gmap string string;      (* os.environ *)
  man_pages : list ManPage;          (* the module-level list *)
  stdout : list string;              (* what print() wrote *)
  debug_log : list string;           (* sphinx_log.debug *)
  written : list PageWrite           (* the pages written by the builder *)
}.

(** ** Computations: state and exceptions *)

Inductive Result (A : Type) : Type :=
  | Ok (a : A)
  | Raise (e : PyExc).
Arguments Ok {A} a.
Arguments Raise {A} e.

Definition M (A : Type) : Type := World -> Result A * World.

Definition ret {A} (a : A) : M A := fun w => (Ok a, w).

Definition bind {A B} (m : M A) (k : A -> M B) : M B :=
  fun w =>
    match m w with
    | (Ok a, w') => k a w'
    | (Raise e, w') => (Raise e, w')
    end.

Definition raise {A} (e : PyExc) : M A := fun w => (Raise e, w).

Definition get_world : M World := fun w => (Ok w, w).

Definition put_world (w' : World) : M unit := fun _ => (Ok tt, w').

Declare Scope py_scope.
Delimit Scope py_scope with py.
Notation "x <- m ;; k" := (bind m (fun x => k))
  (at level 100, m at next level, right associativity) : py_scope.
Notation "m ;;; k" := (bind m (fun _ => k))
  (at level 100, right associativity) : py_scope.
Local Open Scope py_scope.

(** [for x in xs: body x] *)
Fixpoint for_each {A} (xs : list A) (body : A -> M unit) : M unit :=
  match xs with
  | [] => ret tt
  | x :: xs' => body x ;;; for_each xs' body
  end.

(** [print(s)] *)
Definition print (s : string) : M unit :=
  fun w => (Ok tt, mkWorld (fs w) (environ w) (man_pages w)
                           (stdout w ++ [s]) (debug_log w) (written w)).

(** [sphinx_log.debug(s)] *)
Definition log_debug (s : string) : M unit :=
  fun w => (Ok tt, mkWorld (fs w) (environ w) (man_pages w)
                           (stdout w) (debug_log w ++ [s]) (written w)).

(** [man_pages.append(e)] *)
Definition man_pages_append (e : ManPage) : M unit :=
  fun w => (Ok tt, mkWorld (fs w) (environ w) (man_pages w ++ [e])
                           (stdout w) (debug_log w) (written w)).

(** [assert b] *)
Definition assert (b : bool) : M unit :=
  if b then ret tt else raise AssertionError.

(** [fpath.is_file()] *)
Definition is_file (w : World) (p : Path) : bool :=
  match fs w !! p with
  | Some (RegularFile _) => true
  | _ => false
  end.

(** [fpath.read_text()]: the text of a regular file.  A world holds its
    regular files decoded: [text] is what [read_text] returns there, and
    CR, CR LF and LF end a line for [splitlines] whether the newlines
    were translated or not.  A file whose bytes do not decode, on which
    [read_text] raises [UnicodeDecodeError], is in no world of the
    model; no property below says what the module does on one. *)
Definition read_text (p : Path) : M string :=
  fun w =>
    match fs w !! p with
    | Some (RegularFile text) => (Ok text, w)
    | _ => (Raise OSError, w)
    end.

(** [docdir.rglob("*")]: every path below [docdir], each once, in the
    order the file system lists them. *)
Definition rglob (w : World) (docdir : Path) : list Path :=
  List.filter (PathOps.below docdir) (map_to_list (fs w)).*1.

(** ** The objects of the framework

    Sphinx and docutils are not part of this module.  What the module
    calls of them is a field of these records, so that every theorem
    holds for whatever the framework computes there. *)

Record Config : Type := mkConfig {
  source_suffix : list string;
  analytics : bool                    (* the truth value of [config.analytics] *)
}.

Record Project : Type := mkProject {
  path2doc : string -> option string;
  doc2path : string -> string         (* [doc2path(page, basedir=False)] *)
}.

Record Builder : Type := mkBuilder {
  is_DirectoryHTMLBuilder : bool;     (* [isinstance(builder, DirectoryHTMLBuilder)] *)
  get_outfilename : string -> string;
  globalcontext : gmap string PyVal
}.

Record Sphinx : Type := mkSphinx {
  srcdir : string;
  config : Config;                    (* [app.env.config] *)
  builder : Builder;
  project : Project;
  new_Project : string -> list string -> Project;  (* the class [Project] *)
  module_dir : Path                   (* [Path(__file__).parent.resolve()] *)
}.

(** docutils nodes.  [paragraph("", "")] has no child; a [reference]
    built with a text has that text as its child. *)
#[local] Unset Elimination Schemes.
Inductive Node : Type :=
  | Text (data : string)
  | paragraph (children : list Node)
  | reference (internal : bool) (refuri : string) (children : list Node)
  | bullet_list (children : list Node)
  | list_item (children : list Node).
#[local] Set Elimination Schemes.

(** [TextElement.__init__]: an empty text adds no child. *)
Definition text_children (text : string) : list Node :=
  match text with
  | EmptyString => []
  | _ => [Text text]
  end.

Definition nodes_reference (text : string) (internal : bool) (refuri : string)
  : Node :=
  reference internal refuri (text_children text).

(** ** Module constants *)

Definition needs_sphinx : string := "5.0".
Definition author : string := "MongoDB, Inc".

Definition dq : string := String (ascii_of_nat 34) EmptyString.

(** The literal that [add_ga_javascript] appends; the pieces are what
    stands between its double quotes. *)
Definition ga_snippet : string :=
  Str.join dq
    [ "
<!-- Global site tag (gtag.js) - Google Analytics -->
<script async src=";
      "https://www.googletagmanager.com/gtag/js?id=UA-7301842-14";
      "></script>
<script>
  window.dataLayer = window.dataLayer || [];
  function gtag(){dataLayer.push(arguments);}
  gtag('js', new Date());

  gtag('config', 'UA-7301842-14');
</script>
<!--  NPS survey -->
<script type=";
      "text/javascript";
      ">
  !function(e,t,r,n,a){if(!e[a]){for(var i=e[a]=[],s=0;s<r.length;s++){var c=r[s];i[c]=i[c]||function(e){return function(){var t=Array.prototype.slice.call(arguments);i.push([e,t])}}(c)}i.SNIPPET_VERSION=";
      "1.0.1";
      ";var o=t.createElement(";
      "script";
      ");o.type=";
      "text/javascript";
      ",o.async=!0,o.src=";
      "https://d2yyd1h5u9mauk.cloudfront.net/integrations/web/v1/library/";
      "+n+";
      "/";
      "+a+";
      ".js";
      ";var l=t.getElementsByTagName(";
      "script";
      ")[0];l.parentNode.insertBefore(o,l)}}(window,document,[";
      "survey";
      ",";
      "reset";
      ",";
      "config";
      ",";
      "init";
      ",";
      "set";
      ",";
      "get";
      ",";
      "event";
      ",";
      "identify";
      ",";
      "track";
      ",";
      "page";
      ",";
      "screen";
      ",";
      "group";
      ",";
      "alias";
      "],";
      "Dk30CC86ba0nATlK";
      ",";
      "delighted";
      ");

  delighted.survey();
</script>
" ].

(** ** The man-page collector *)

(** [if m] and [assert docname]: [None] and the empty string are false. *)
Definition truthy (o : option string) : bool :=
  match o with
  | Some (String _ _) => true
  | _ => false
  end.

Definition _file_man_page_name (fpath : Path) : M (option string) :=
  text <- read_text fpath ;;
  ret (first_man_page (Str.splitlines text)).

(** The generators of [_collect_man] are lazy: a file is tested, read and
    matched when the loop asks for the next pair.  Nothing in the loop
    changes the files, so the tests are taken on the world at entry. *)
Definition rst_files (w : World) (docdir : Path) : list Path :=
  let children := rglob w docdir in
  let files := List.filter (is_file w) children in
  List.filter (fun f => String.eqb (PathOps.suffix f) ".rst") files.

(** The body of the loop, behind the filter [if m] of [pairs]. *)
Definition _collect_man_body (proj : Project) (filepath : Path) : M unit :=
  m <- _file_man_page_name filepath ;;
  if truthy m then
    let man_name := default EmptyString m in
    let docname := path2doc proj (PathOps.to_str filepath) in
    assert (truthy docname) ;;;
    man_pages_append
      (default EmptyString docname, man_name, EmptyString, [author], 3%Z)
  else ret tt.

Definition _collect_man (app : Sphinx) (config : Config) : M unit :=
  w <- get_world ;;
  let docdir := PathOps.of_str (srcdir app) in
  let proj := new_Project app (srcdir app) (source_suffix config) in
  for_each (rst_files w docdir) (_collect_man_body proj).

(** *** The collector in the words of the specification *)

Definition with_man_pages (w : World) (l : list ManPage) : World :=
  mkWorld (fs w) (environ w) l (stdout w) (debug_log w) (written w).

Definition with_stdout (w : World) (l : list string) : World :=
  mkWorld (fs w) (environ w) (man_pages w) l (debug_log w) (written w).

(** The man-page name a path declares: the group of the first matching
    line of a regular file. *)
Definition man_name_of (w : World) (f : Path) : option string :=
  match fs w !! f with
  | Some (RegularFile text) => first_man_page (Str.splitlines text)
  | _ => None
  end.

(** What a path contributes to the list: one entry for a regular [.rst]
    file that declares a man-page name, nothing otherwise. *)
Definition man_page_contribution (w : World) (proj : Project) (f : Path)
  : list ManPage :=
  match fs w !! f with
  | Some (RegularFile text) =>
      if String.eqb (PathOps.suffix f) ".rst" then
        match first_man_page (Str.splitlines text),
              path2doc proj (PathOps.to_str f) with
        | Some X, Some docname =>
            [(docname, X, EmptyString, [author], 3%Z)]
        | _, _ => []
        end
      else []
  | _ => []
  end.

(** The identifier resolves: [assert docname] passes. *)
Definition resolves (proj : Project) (f : Path) : Prop :=
  truthy (path2doc proj (PathOps.to_str f)) = true.

Global Instance resolves_dec proj f : Decision (resolves proj f).
Proof. unfold resolves. apply _. Defined.

(** Every document that declares a man-page name resolves. *)
Definition all_resolve (w : World) (proj : Project) (fl : list Path) : Prop :=
  Forall (fun f => is_Some (man_name_of w f) -> resolves proj f) fl.

Global Instance all_resolve_dec w proj fl : Decision (all_resolve w proj fl).
Proof. unfold all_resolve. apply _. Defined.

(** ** The analytics injector *)

(** The context is a dictionary changed in place; the model returns it. *)
Definition add_ga_javascript (app : Sphinx) (pagename templatename : string)
    (context : gmap string PyVal) : M (gmap string PyVal) :=
  if negb (analytics (config app)) then ret context
  else
    match default (PyStr EmptyString) (context !! "metatags") with
    | PyStr s => ret (<["metatags" := PyStr (s +:+ ga_snippet)]> context)
    | _ => raise TypeError
    end.

(** ** The [versionlist] directive *)

Module VersionList.

Definition release_uri (libname v : string) : string :=
  "https://www.mongoc.org/" +:+ libname +:+ "/" +:+ v +:+ "/index.html".

Definition master_uri (libname : string) : string :=
  "https://s3.amazonaws.com/mciuploads/mongo-c-driver/docs/"
  +:+ libname +:+ "/latest/index.html".

(** the body of [for v in versions] *)
Definition version_item (libname v : string) : Node :=
  list_item [paragraph [nodes_reference v false (release_uri libname v)]].

Definition run (content : list string) : M (list Node) :=
  match content with
  | [] => raise IndexError
  | content0 :: _ =>
      if negb (String.eqb content0 "libmongoc")
         && negb (String.eqb content0 "libbson")
      then print "versionlist must be libmongoc or libbson" ;;; ret []
      else
        let libname := content0 in
        let env_name := Str.upper libname +:+ "_VERSION_LIST" in
        w <- get_world ;;
        match environ w !! env_name with
        | None =>
            print (env_name +:+ " not set, not generating version list") ;;;
            ret []
        | Some value =>
            let versions := Str.split "," value in
            match versions with
            | [] => raise IndexError
            | versions0 :: _ =>
                let header :=
                  paragraph
                    [ paragraph
                        [nodes_reference
                           ("Latest Release (" +:+ versions0 +:+ ")")
                           false (release_uri libname versions0)];
                      paragraph
                        [nodes_reference "Current Development (master)"
                           false (master_uri libname)] ] in
                let blist :=
                  bullet_list (List.map (version_item libname) versions) in
                ret [header; blist]
            end
        end
  end.

End VersionList.

(** ** The redirect generator *)

Definition redirect_marker : string := "writing-redirect".

(** [handle_page] is [builder.handle_page], the page-writing primitive of
    the framework. *)
Definition generate_html_redirs
    (handle_page : string -> gmap string PyVal -> string -> string -> M unit)
    (app : Sphinx) (page templatename : string)
    (context : gmap string PyVal) : M unit :=
  let builder := builder app in
  if negb (is_DirectoryHTMLBuilder builder)
     || bool_decide (is_Some (context !! redirect_marker))
  then ret tt
  else if String.eqb page "index" || Str.endswith page ".index"
  then ret tt
  else
    let path := doc2path (project app) page in
    let out_index_html := PathOps.of_str (get_outfilename builder page) in
    let slug := PathOps.name (PathOps.parent out_index_html) in
    let redirect_file :=
      PathOps.div (PathOps.parent (PathOps.parent out_index_html))
                  (slug +:+ ".html") in
    handle_page ("redirect-for-" +:+ page)
                (<["target" := PyStr page]>
                   (<[redirect_marker := PyInt 1]> ∅))
                (PathOps.to_str (PathOps.div (module_dir app) "redirect.t.html"))
                (PathOps.to_str redirect_file) ;;;
    log_debug ("Wrote redirect: " +:+ path +:+ " -> " +:+ page).

(** ** The page-writing primitive and the registration *)

Module Framework.

(** The builder writes the file. *)
Definition write_page (pagename : string) (ctx : gmap string PyVal)
    (templatename outfilename : string) : M unit :=
  fun w => (Ok tt, mkWorld (fs w) (environ w) (man_pages w) (stdout w)
                           (debug_log w)
                           (written w ++
                            [mkPageWrite pagename ctx templatename
                                         outfilename])).

(** Modelled from the spec: the page-writing primitive of the host
    framework, which is missing from this module.  It builds the render
    context from the builder's global context updated with the context
    it is given, calls the listeners of "html-page-context" in the order
    [mongoc_common_setup] connects them, and writes the page.  A
    listener that calls the primitive again nests one level deeper;
    [fuel] is the depth the interpreter allows. *)
Fixpoint handle_page (fuel : nat) (app : Sphinx) (pagename : string)
    (addctx : gmap string PyVal) (templatename outfilename : string)
  : M unit :=
  match fuel with
  | 0 => raise RecursionError
  | S fuel' =>
      let ctx := addctx ∪ globalcontext (builder app) in
      generate_html_redirs (handle_page fuel' app)
                           app pagename templatename ctx ;;;
      ctx' <- add_ga_javascript app pagename templatename ctx ;;
      write_page pagename ctx' templatename outfilename
  end.

(** A project for the sample inputs (the class [Project] is the
    framework's): it resolves a file name to its path below the source
    directory without the suffix, when the suffix is one of the
    configured ones, and to [None] otherwise. *)
Fixpoint strip_suffixes (suffixes : list string) (filename : string)
  : option string :=
  match suffixes with
  | [] => None
  | sfx :: rest =>
      match Str.strip_prefix (Str.rev sfx) (Str.rev filename) with
      | Some r => Some (Str.rev r)
      | None => strip_suffixes rest filename
      end
  end.

Definition suffix_project (srcdir : string) (suffixes : list string)
  : Project :=
  mkProject
    (fun filename =>
       let rel := default filename
                    (Str.strip_prefix (srcdir +:+ "/") filename) in
       strip_suffixes suffixes rel)
    (fun docname => docname +:+ default ".rst" (List.head suffixes)).


End Framework.

(** ** Shapes used by the further properties *)

(** An entry as the collector builds it: a docname and a name that are
    not empty, no description, the one author, section 3. *)
Definition collector_entry (e : ManPage) : Prop :=
  exists docname man_name,
    e = (docname, man_name, EmptyString, [author], 3%Z)
    /\ docname <> EmptyString /\ man_name <> EmptyString.

(** No line boundary of [splitlines]. *)
Definition no_linebreak (c : ascii) : bool := negb (Str.is_linebreak c).

(** Not the character [sep]. *)
Definition not_char (sep c : ascii) : bool := negb (Ascii.eqb c sep).

(** ** Sample inputs *)

Module Sample.

(** A world with the given regular files and environment. *)
Definition world (files : list (string * string))
    (env : list (string * string)) : World :=
  mkWorld
    (list_to_map
       (List.map (fun pt => (PathOps.of_str pt.1, RegularFile pt.2)) files))
    (list_to_map env) [] [] [] [].

Definition app (dirhtml analytics : bool) (suffixes : list string) : Sphinx :=
  mkSphinx "/docs" (mkConfig suffixes analytics)
    (mkBuilder dirhtml
       (fun page => "/docs/_build/dirhtml/" +:+ page +:+ "/index.html") ∅)
    (Framework.suffix_project "/docs" suffixes)
    Framework.suffix_project
    (PathOps.of_str "/repo/build/sphinx").

Definition two_markers : string := ":man_page: bson_t
:man_page: bson_value_t
".

Definition indented_marker : string := "Title
  :man_page: bson_t
".

Definition plain_page : string := "Title
=====
".

Definition one_marker : string := ":man_page: mongoc_client_t

mongoc_client_t
===============
".


(** the marker and three blanks *)
Definition blank_marker : string :=
  ":man_page:" +:+ "   " +:+ "
Title
".

End Sample.

(** * Properties *)

(** ** Running computations *)

(** No page is written. *)
Ltac no_write :=
  exists []; rewrite app_nil_r; split_and!; [done|simpl; lia|constructor].

Lemma bind_ok {A B} (m : M A) (k : A -> M B) w a w' :
  m w = (Ok a, w') -> bind m k w = k a w'.
Proof. intros H. unfold bind. by rewrite H. Qed.

Lemma bind_raise {A B} (m : M A) (k : A -> M B) w e w' :
  m w = (Raise e, w') -> bind m k w = (Raise e, w').
Proof. intros H. unfold bind. by rewrite H. Qed.

Lemma read_text_file p text w :
  fs w !! p = Some (RegularFile text) -> read_text p w = (Ok text, w).
Proof. intros H. unfold read_text. by rewrite H. Qed.

Lemma file_man_page_name_lines p text w :
  fs w !! p = Some (RegularFile text) ->
  _file_man_page_name p w = (Ok (first_man_page (Str.splitlines text)), w).
Proof.
  intros H. unfold _file_man_page_name.
  by rewrite (bind_ok _ _ _ _ _ (read_text_file _ _ _ H)).
Qed.

(** ** The first matching line *)

Lemma first_man_page_skip pre rest :
  Forall (fun l => Re.match_man_page l = None) pre ->
  first_man_page (pre ++ rest)%list = first_man_page rest.
Proof.
  induction 1 as [|l pre Hl _ IH]; simpl; [done|]. by rewrite Hl.
Qed.

Lemma first_man_page_found pre l post g :
  Forall (fun l => Re.match_man_page l = None) pre ->
  Re.match_man_page l = Some g ->
  first_man_page (pre ++ l :: post)%list = Some g.
Proof.
  intros Hpre Hl. rewrite first_man_page_skip by done. simpl. by rewrite Hl.
Qed.

(** A result of the loop is the group of a line that no matching line
    precedes. *)
Lemma first_man_page_Some lines g :
  first_man_page lines = Some g ->
  exists pre l post,
    lines = (pre ++ l :: post)%list
    /\ Forall (fun l => Re.match_man_page l = None) pre
    /\ Re.match_man_page l = Some g.
Proof.
  induction lines as [|l lines IH]; simpl; [done|].
  destruct (Re.match_man_page l) as [g'|] eqn:Hl.
  - intros [= ->]. by exists [], l, lines.
  - intros (pre & l' & post & -> & Hpre & Hl')%IH.
    exists (l :: pre), l', post. split_and!; [done| |done].
    by constructor.
Qed.

Lemma first_man_page_None lines :
  first_man_page lines = None <->
  Forall (fun l => Re.match_man_page l = None) lines.
Proof.
  induction lines as [|l lines IH]; simpl.
  - split; [constructor|done].
  - destruct (Re.match_man_page l) eqn:Hl.
    + split; [done|]. inversion 1; congruence.
    + rewrite IH. split; [by constructor|]. by inversion 1.
Qed.

(** The group is never empty, so [if m] only tests for [None]. *)
Lemma group_dot_plus_nonempty s g :
  Re.group_dot_plus s = Some g -> g <> EmptyString.
Proof.
  unfold Re.group_dot_plus.
  destruct (Str.take_while Str.is_dot s); [done|]. by intros [= <-].
Qed.

Lemma space_plus_then_group_nonempty s g :
  Re.space_plus_then_group s = Some g -> g <> EmptyString.
Proof.
  revert g. induction s as [|c s IH]; intros g; simpl; [done|].
  destruct (Str.is_space c).
  - destruct (Re.space_plus_then_group s) as [g'|].
    + intros [= <-]. by apply IH.
    + apply group_dot_plus_nonempty.
  - apply group_dot_plus_nonempty.
Qed.

Lemma match_man_page_nonempty line g :
  Re.match_man_page line = Some g -> g <> EmptyString.
Proof.
  unfold Re.match_man_page.
  destruct (Str.strip_prefix _ line) as [[|c s]|]; [done| |done].
  destruct (Str.is_space c); [|done]. apply space_plus_then_group_nonempty.
Qed.

Lemma first_man_page_truthy lines :
  truthy (first_man_page lines)
  = bool_decide (is_Some (first_man_page lines)).
Proof.
  destruct (first_man_page lines) as [g|] eqn:H.
  - apply first_man_page_Some in H as (_ & l & _ & _ & _ & Hl).
    apply match_man_page_nonempty in Hl. by destruct g.
  - done.
Qed.

(** [re.match] looks at the start of the line only. *)
Lemma match_man_page_anchored line :
  Str.startswith line ":man_page:" = false -> Re.match_man_page line = None.
Proof.
  unfold Str.startswith, Re.match_man_page.
  by destruct (Str.strip_prefix _ line).
Qed.

(** What the pattern captures on a line of the documented form: the
    marker, white space, and a value that starts with a character that is
    no white space. *)
Lemma take_while_all f s : Str.all_chars f s = true -> Str.take_while f s = s.
Proof.
  induction s as [|c s IH]; simpl; [done|].
  intros [Hc Hs]%andb_prop. rewrite Hc. by rewrite IH.
Qed.

Lemma space_plus_then_group_value sp c v :
  Str.all_chars Str.is_space sp = true ->
  Str.is_space c = false ->
  Str.all_chars Str.is_dot (String c v) = true ->
  Re.space_plus_then_group (sp +:+ String c v) = Some (String c v).
Proof.
  intros Hsp Hc Hv. induction sp as [|a sp IH]; simpl.
  - rewrite Hc. unfold Re.group_dot_plus.
    rewrite take_while_all by done. done.
  - simpl in Hsp. apply andb_prop in Hsp as [Ha Hsp].
    rewrite Ha. by rewrite IH.
Qed.

Lemma match_man_page_value a sp c v :
  Str.is_space a = true ->
  Str.all_chars Str.is_space sp = true ->
  Str.is_space c = false ->
  Str.all_chars Str.is_dot (String c v) = true ->
  Re.match_man_page (":man_page:" +:+ String a sp +:+ String c v)
  = Some (String c v).
Proof.
  intros Ha Hsp Hc Hv. unfold Re.match_man_page. simpl.
  rewrite Ha. by apply space_plus_then_group_value.
Qed.

(** ** The man-page name of a file *)

(** C6: when a document has more than one line matching the pattern, the
    value captured on the first of them is the man-page name; the later
    ones are not looked at, nothing is raised and nothing is printed. *)
Theorem file_man_page_name_first_only p text pre l mid l' post g g' w :
  fs w !! p = Some (RegularFile text) ->
  Str.splitlines text = (pre ++ l :: mid ++ l' :: post)%list ->
  Forall (fun x => Re.match_man_page x = None) pre ->
  Re.match_man_page l = Some g ->
  Re.match_man_page l' = Some g' ->
  _file_man_page_name p w = (Ok (Some g), w).
Proof.
  intros Hp Hlines Hpre Hl _.
  rewrite (file_man_page_name_lines _ _ _ Hp), Hlines.
  by rewrite (first_man_page_found _ _ _ _ Hpre Hl).
Qed.

Lemma file_man_page_name_first_only_witness :
  _file_man_page_name (PathOps.of_str "/docs/bson_t.rst")
    (Sample.world [("/docs/bson_t.rst", Sample.two_markers)] [])
  = (Ok (Some "bson_t"),
     Sample.world [("/docs/bson_t.rst", Sample.two_markers)] []).
Proof.
  apply (file_man_page_name_first_only _ Sample.two_markers
           [] ":man_page: bson_t" [] ":man_page: bson_value_t" []
           "bson_t" "bson_value_t").
  - vm_compute. reflexivity.
  - vm_compute. reflexivity.
  - constructor.
  - vm_compute. reflexivity.
  - vm_compute. reflexivity.
Defined.

(** C9, as the code has it: the pattern is matched at the start of the
    line.  The first line that starts with the marker, white space and a
    value has that value as the document's man-page name; a line on which
    anything precedes the marker declares nothing. *)
Theorem file_man_page_name_anchored p text pre a sp c v post w :
  fs w !! p = Some (RegularFile text) ->
  Str.splitlines text
  = (pre ++ (":man_page:" +:+ String a sp +:+ String c v) :: post)%list ->
  Forall (fun x => Re.match_man_page x = None) pre ->
  Str.is_space a = true ->
  Str.all_chars Str.is_space sp = true ->
  Str.is_space c = false ->
  Str.all_chars Str.is_dot (String c v) = true ->
  _file_man_page_name p w = (Ok (Some (String c v)), w)
  /\ (forall line,
        Str.startswith line ":man_page:" = false ->
        Re.match_man_page line = None).
Proof.
  intros Hp Hlines Hpre Ha Hsp Hc Hv. split.
  - rewrite (file_man_page_name_lines _ _ _ Hp), Hlines.
    apply f_equal2; [|done]. f_equal.
    apply first_man_page_found; [done|].
    by apply match_man_page_value.
  - apply match_man_page_anchored.
Qed.

Lemma file_man_page_name_anchored_witness :
  _file_man_page_name (PathOps.of_str "/docs/mongoc_client_t.rst")
    (Sample.world [("/docs/mongoc_client_t.rst", Sample.one_marker)] [])
  = (Ok (Some "mongoc_client_t"),
     Sample.world [("/docs/mongoc_client_t.rst", Sample.one_marker)] [])
  /\ (forall line,
        Str.startswith line ":man_page:" = false ->
        Re.match_man_page line = None).
Proof.
  apply (file_man_page_name_anchored _ Sample.one_marker
           [] " " EmptyString "m" "ongoc_client_t"
           [EmptyString; "mongoc_client_t"; "==============="]).
  - vm_compute. reflexivity.
  - vm_compute. reflexivity.
  - constructor.
  - reflexivity.
  - reflexivity.
  - reflexivity.
  - reflexivity.
Defined.

(** C9, as stated, fails: the only line of the second paragraph carries
    the marker after two blanks; the pattern matches from its third
    character on, and the file has no man-page name. *)
Lemma file_man_page_name_indented_marker :
  Str.splitlines Sample.indented_marker = ["Title"; "  :man_page: bson_t"]
  /\ Re.match_man_page (Str.drop 2 "  :man_page: bson_t") = Some "bson_t"
  /\ _file_man_page_name (PathOps.of_str "/docs/bson_t.rst")
       (Sample.world [("/docs/bson_t.rst", Sample.indented_marker)] [])
     = (Ok None,
        Sample.world [("/docs/bson_t.rst", Sample.indented_marker)] []).
Proof. vm_compute. done. Qed.

(** ** The man-page collector *)

Lemma rglob_NoDup w docdir : NoDup (rglob w docdir).
Proof.
  apply NoDup_ListNoDup, List.NoDup_filter, NoDup_ListNoDup.
  apply NoDup_fst_map_to_list.
Qed.


Lemma elem_of_rst_files w docdir f :
  f ∈ rst_files w docdir <->
  f ∈ rglob w docdir /\ is_file w f = true /\ PathOps.suffix f = ".rst".
Proof.
  unfold rst_files. rewrite !list_elem_of_In, !List.filter_In.
  rewrite String.eqb_eq. tauto.
Qed.

Lemma is_file_text w f :
  is_file w f = true <-> exists text, fs w !! f = Some (RegularFile text).
Proof.
  unfold is_file.
  destruct (fs w !! f) as [[text|]|]; split; try done;
    try (by intros [? [=]]).
  by exists text.
Qed.

(** One turn of the loop on a regular file. *)
Lemma collect_man_body_run proj f w :
  is_file w f = true ->
  _collect_man_body proj f w =
    match man_name_of w f with
    | None => (Ok tt, w)
    | Some X =>
        match path2doc proj (PathOps.to_str f) with
        | Some (String c d) =>
            (Ok tt, with_man_pages w
                      (man_pages w
                       ++ [(String c d, X, EmptyString, [author], 3%Z)]))
        | _ => (Raise AssertionError, w)
        end
    end.
Proof.
  intros [text Hf]%is_file_text. unfold _collect_man_body, man_name_of.
  rewrite (bind_ok _ _ _ _ _ (file_man_page_name_lines _ _ _ Hf)), Hf.
  rewrite first_man_page_truthy.
  destruct (first_man_page (Str.splitlines text)) as [X|]; [|done].
  simpl. destruct (path2doc proj (PathOps.to_str f)) as [[|c d]|]; done.
Qed.

Lemma contribution_rst_file w proj f :
  is_file w f = true -> PathOps.suffix f = ".rst" ->
  man_page_contribution w proj f =
    match man_name_of w f, path2doc proj (PathOps.to_str f) with
    | Some X, Some docname => [(docname, X, EmptyString, [author], 3%Z)]
    | _, _ => []
    end.
Proof.
  intros [text Hf]%is_file_text Hs.
  unfold man_page_contribution, man_name_of. rewrite Hf, Hs. done.
Qed.

Lemma contribution_other w proj f :
  ~ (is_file w f = true /\ PathOps.suffix f = ".rst") ->
  man_page_contribution w proj f = [].
Proof.
  intros H. unfold man_page_contribution.
  destruct (fs w !! f) as [[text|]|] eqn:Hf; [|done..].
  destruct (String.eqb_spec (PathOps.suffix f) ".rst") as [Hs|]; [|done].
  destruct H. split; [|done]. apply is_file_text. by exists text.
Qed.

(** The loop only appends to [man_pages], so what it reads of the world
    stays as it was at entry. *)
Lemma with_man_pages_reads w l f :
  is_file (with_man_pages w l) f = is_file w f
  /\ man_name_of (with_man_pages w l) f = man_name_of w f.
Proof. done. Qed.

Lemma with_man_pages_twice w l l' :
  with_man_pages (with_man_pages w l) l' = with_man_pages w l'.
Proof. done. Qed.

Lemma with_man_pages_same w : with_man_pages w (man_pages w) = w.
Proof. by destruct w. Qed.

(** The loop over files that all resolve. *)
Lemma collect_man_loop_ok proj fl : forall w0 l,
  Forall (fun f => is_file w0 f = true /\ PathOps.suffix f = ".rst") fl ->
  all_resolve w0 proj fl ->
  for_each fl (_collect_man_body proj) (with_man_pages w0 l)
  = (Ok tt, with_man_pages w0
              (l ++ flat_map (man_page_contribution w0 proj) fl)).
Proof.
  induction fl as [|f fl IH]; intros w0 l Hfiles Hres; simpl.
  - by rewrite app_nil_r.
  - inversion Hfiles as [|? ? [Hf Hs] Hfiles']; subst.
    inversion Hres as [|? ? Hr Hres']; subst.
    rewrite (contribution_rst_file _ _ _ Hf Hs).
    unfold bind at 1. rewrite collect_man_body_run by done.
    change (man_name_of (with_man_pages w0 l) f) with (man_name_of w0 f).
    destruct (man_name_of w0 f) as [X|] eqn:HX.
    + specialize (Hr (ltac:(by eexists))). unfold resolves in Hr.
      destruct (path2doc proj (PathOps.to_str f)) as [[|c d]|]; [done| |done].
      rewrite with_man_pages_twice. simpl man_pages.
      rewrite IH by done. by rewrite <- app_assoc.
    + by rewrite IH.
Qed.

(** The loop up to the first file that declares a name and does not
    resolve. *)
Lemma collect_man_loop_fail proj pre f post X : forall w0 l,
  Forall (fun f => is_file w0 f = true /\ PathOps.suffix f = ".rst")
         (pre ++ f :: post) ->
  all_resolve w0 proj pre ->
  man_name_of w0 f = Some X ->
  ~ resolves proj f ->
  for_each (pre ++ f :: post) (_collect_man_body proj) (with_man_pages w0 l)
  = (Raise AssertionError,
     with_man_pages w0 (l ++ flat_map (man_page_contribution w0 proj) pre)).
Proof.
  induction pre as [|g pre IH]; intros w0 l Hfiles Hres HX Hnot; simpl.
  - inversion Hfiles as [|? ? [Hf Hs] _]; subst.
    unfold bind at 1. rewrite collect_man_body_run by done.
    change (man_name_of (with_man_pages w0 l) f) with (man_name_of w0 f).
    rewrite HX, app_nil_r. unfold resolves in Hnot.
    destruct (path2doc proj (PathOps.to_str f)) as [[|c d]|]; done.
  - inversion Hfiles as [|? ? [Hg Hs] Hfiles']; subst.
    inversion Hres as [|? ? Hr Hres']; subst.
    rewrite (contribution_rst_file _ _ _ Hg Hs).
    unfold bind at 1. rewrite collect_man_body_run by done.
    change (man_name_of (with_man_pages w0 l) g) with (man_name_of w0 g).
    destruct (man_name_of w0 g) as [Y|] eqn:HY.
    + specialize (Hr (ltac:(by eexists))). unfold resolves in Hr.
      destruct (path2doc proj (PathOps.to_str g)) as [[|c d]|]; [done| |done].
      rewrite with_man_pages_twice. simpl man_pages.
      rewrite IH by done. by rewrite <- app_assoc.
    + by rewrite IH.
Qed.

Lemma rst_files_are_rst w docdir :
  Forall (fun f => is_file w f = true /\ PathOps.suffix f = ".rst")
         (rst_files w docdir).
Proof.
  apply Forall_forall. intros f Hf. apply elem_of_rst_files in Hf. tauto.
Qed.

(** Only the regular [.rst] files contribute. *)
Lemma flat_map_contribution_rst w proj fl :
  flat_map (man_page_contribution w proj)
    (List.filter (fun f => String.eqb (PathOps.suffix f) ".rst")
       (List.filter (is_file w) fl))
  = flat_map (man_page_contribution w proj) fl.
Proof.
  induction fl as [|f fl IH]; simpl; [done|].
  destruct (is_file w f) eqn:Hf; simpl.
  - destruct (String.eqb_spec (PathOps.suffix f) ".rst") as [Hs|Hs]; simpl.
    + by rewrite IH.
    + rewrite IH, (contribution_other w proj f); [done|]. tauto.
  - rewrite IH, (contribution_other w proj f); [done|].
    intros [? _]. congruence.
Qed.

(** The first file of a list that declares a name and does not resolve. *)
Lemma first_unresolved w proj fl f :
  f ∈ fl -> is_Some (man_name_of w f) -> ~ resolves proj f ->
  exists pre g post,
    fl = (pre ++ g :: post)%list
    /\ all_resolve w proj pre
    /\ is_Some (man_name_of w g) /\ ~ resolves proj g.
Proof.
  intros Hin Hname Hnot. induction fl as [|h fl IH]; [by inversion Hin|].
  destruct (decide (is_Some (man_name_of w h) -> resolves proj h)) as [Hh|Hh].
  - assert (f ∈ fl) as Hin'.
    { inversion Hin; subst; [|done]. by destruct Hnot; apply Hh. }
    destruct (IH Hin') as (pre & g & post & -> & Hpre & Hg).
    exists (h :: pre), g, post. split_and!; try done; try tauto.
    by constructor.
  - exists [], h, fl. split_and!; [done|constructor| |].
    + destruct (man_name_of w h); [by eexists|]. destruct Hh. by intros [? [=]].
    + intros Hr. by apply Hh.
Qed.

Section Collector.

Variables (app : Sphinx) (config : Config) (w : World).

Local Abbreviation docdir := (PathOps.of_str (srcdir app)).
Local Abbreviation proj :=
  (new_Project app (srcdir app) (source_suffix config)).

Lemma collect_man_unfold :
  _collect_man app config w
  = for_each (rst_files w docdir) (_collect_man_body proj) w.
Proof. done. Qed.

(** C1, as the code has it: when every document that declares a
    man-page name resolves, the collector returns and has appended, for
    each path below the source directory in the order of the scan, what
    that path contributes.  No path is scanned twice.  A regular [.rst]
    file whose first matching line captures X contributes exactly one
    entry, (docname, X, "", [author], 3) with the docname resolved from
    its path; a file without a matching line contributes none. *)
Theorem collect_man_entries :
  all_resolve w proj (rst_files w docdir) ->
  _collect_man app config w
  = (Ok tt,
     with_man_pages w
       (man_pages w
        ++ flat_map (man_page_contribution w proj) (rglob w docdir)))
  /\ NoDup (rglob w docdir)
  /\ (forall f text pre l post X,
        f ∈ rglob w docdir ->
        fs w !! f = Some (RegularFile text) ->
        PathOps.suffix f = ".rst" ->
        Str.splitlines text = (pre ++ l :: post)%list ->
        Forall (fun x => Re.match_man_page x = None) pre ->
        Re.match_man_page l = Some X ->
        exists docname,
          path2doc proj (PathOps.to_str f) = Some docname
          /\ man_page_contribution w proj f
             = [(docname, X, EmptyString, [author], 3%Z)])
  /\ (forall f text,
        fs w !! f = Some (RegularFile text) ->
        Forall (fun x => Re.match_man_page x = None) (Str.splitlines text) ->
        man_page_contribution w proj f = []).
Proof.
  intros Hres. split_and!.
  - rewrite collect_man_unfold.
    pose proof (collect_man_loop_ok proj (rst_files w docdir) w (man_pages w)
                  (rst_files_are_rst w docdir) Hres) as Hrun.
    rewrite with_man_pages_same in Hrun. rewrite Hrun.
    unfold rst_files. by rewrite flat_map_contribution_rst.
  - apply rglob_NoDup.
  - intros f text pre l post X Hin Hf Hs Hlines Hpre Hl.
    assert (man_name_of w f = Some X) as HX.
    { unfold man_name_of. rewrite Hf, Hlines.
      by apply first_man_page_found. }
    assert (is_file w f = true) as Hfile.
    { apply is_file_text. by exists text. }
    assert (resolves proj f) as Hr.
    { unfold all_resolve in Hres. rewrite Forall_forall in Hres.
      apply Hres; [|by eexists]. by apply elem_of_rst_files. }
    rewrite (contribution_rst_file _ _ _ Hfile Hs), HX.
    unfold resolves in Hr.
    destruct (path2doc proj (PathOps.to_str f)) as [d|]; [|done].
    by exists d.
  - intros f text Hf Hno. unfold man_page_contribution. rewrite Hf.
    apply first_man_page_None in Hno. rewrite Hno.
    by destruct (String.eqb _ _).
Qed.

(** C8, as the code has it: a document that declares a man-page name
    and whose identifier does not resolve makes the collector fail with
    an assertion.  What has been appended by then comes from documents
    scanned before the first such document; the document itself is not
    among them. *)
Theorem collect_man_unresolved f :
  f ∈ rst_files w docdir ->
  is_Some (man_name_of w f) ->
  ~ resolves proj f ->
  exists pre,
    pre `prefix_of` rst_files w docdir
    /\ (f ∉ pre)
    /\ all_resolve w proj pre
    /\ _collect_man app config w
       = (Raise AssertionError,
          with_man_pages w
            (man_pages w ++ flat_map (man_page_contribution w proj) pre)).
Proof.
  intros Hin Hname Hnot.
  destruct (first_unresolved w proj _ f Hin Hname Hnot)
    as (pre & g & post & Hfl & Hpre & [X HX] & Hg).
  exists pre. split_and!.
  - rewrite Hfl. by eexists.
  - intros Hf. unfold all_resolve in Hpre. rewrite Forall_forall in Hpre.
    by apply Hnot, Hpre.
  - done.
  - rewrite collect_man_unfold, Hfl.
    pose proof (collect_man_loop_fail proj pre g post X w (man_pages w))
      as Hrun.
    rewrite with_man_pages_same in Hrun. apply Hrun; try done.
    rewrite <- Hfl. apply rst_files_are_rst.
Qed.

End Collector.

Lemma collect_man_entries_witness :
  _collect_man (Sample.app true false [".rst"]) (mkConfig [".rst"] false)
    (Sample.world [("/docs/mongoc_client_t.rst", Sample.one_marker);
                   ("/docs/guide/index.rst", Sample.plain_page)] [])
  = (Ok tt,
     with_man_pages
       (Sample.world [("/docs/mongoc_client_t.rst", Sample.one_marker);
                      ("/docs/guide/index.rst", Sample.plain_page)] [])
       [("mongoc_client_t", "mongoc_client_t", EmptyString, [author], 3%Z)]).
Proof.
  refine (proj1 (collect_man_entries
                   (Sample.app true false [".rst"]) (mkConfig [".rst"] false)
                   (Sample.world
                      [("/docs/mongoc_client_t.rst", Sample.one_marker);
                       ("/docs/guide/index.rst", Sample.plain_page)] [])
                   _)).
  apply (bool_decide_unpack _). vm_compute. exact I.
Defined.

(** C1, as stated, fails: the document has a line matching the pattern
    with the value [bson_value_t], and the list gets no entry of that
    name; its only entry is named after the first matching line. *)
Lemma collect_man_second_marker_no_entry :
  ":man_page: bson_value_t" ∈ Str.splitlines Sample.two_markers
  /\ Re.match_man_page ":man_page: bson_value_t" = Some "bson_value_t"
  /\ _collect_man (Sample.app true false [".rst"]) (mkConfig [".rst"] false)
       (Sample.world [("/docs/bson_t.rst", Sample.two_markers)] [])
     = (Ok tt,
        with_man_pages
          (Sample.world [("/docs/bson_t.rst", Sample.two_markers)] [])
          [("bson_t", "bson_t", EmptyString, [author], 3%Z)]).
Proof.
  split_and!.
  - apply (bool_decide_unpack _). vm_compute. exact I.
  - vm_compute. reflexivity.
  - vm_compute. reflexivity.
Qed.

Lemma collect_man_unresolved_witness :
  exists pre,
    pre `prefix_of`
      rst_files
        (Sample.world [("/docs/mongoc_client_t.rst", Sample.one_marker)] [])
        (PathOps.of_str "/docs")
    /\ (PathOps.of_str "/docs/mongoc_client_t.rst" ∉ pre)
    /\ all_resolve
         (Sample.world [("/docs/mongoc_client_t.rst", Sample.one_marker)] [])
         (Framework.suffix_project "/docs" [".txt"]) pre
    /\ _collect_man (Sample.app true false [".txt"]) (mkConfig [".txt"] false)
         (Sample.world [("/docs/mongoc_client_t.rst", Sample.one_marker)] [])
       = (Raise AssertionError,
          with_man_pages
            (Sample.world
               [("/docs/mongoc_client_t.rst", Sample.one_marker)] [])
            ([] ++ flat_map
                     (man_page_contribution
                        (Sample.world
                           [("/docs/mongoc_client_t.rst", Sample.one_marker)]
                           [])
                        (Framework.suffix_project "/docs" [".txt"]))
                     pre)).
Proof.
  apply (collect_man_unresolved
           (Sample.app true false [".txt"]) (mkConfig [".txt"] false)
           (Sample.world [("/docs/mongoc_client_t.rst", Sample.one_marker)] [])
           (PathOps.of_str "/docs/mongoc_client_t.rst")).
  - apply (bool_decide_unpack _). vm_compute. exact I.
  - apply (bool_decide_unpack _). vm_compute. exact I.
  - apply (bool_decide_unpack _). vm_compute. exact I.
Defined.

(** C8, as stated, fails: the identifier of the document does not resolve
    (the project knows no [.rst] suffix), the document declares no
    man-page name, and the collector returns without an assertion. *)
Lemma collect_man_unmarked_not_resolved :
  PathOps.of_str "/docs/guide.rst"
    ∈ rst_files (Sample.world [("/docs/guide.rst", Sample.plain_page)] [])
                (PathOps.of_str "/docs")
  /\ path2doc (Framework.suffix_project "/docs" [".txt"]) "/docs/guide.rst"
     = None
  /\ _collect_man (Sample.app true false [".txt"]) (mkConfig [".txt"] false)
       (Sample.world [("/docs/guide.rst", Sample.plain_page)] [])
     = (Ok tt, Sample.world [("/docs/guide.rst", Sample.plain_page)] []).
Proof.
  split_and!.
  - apply (bool_decide_unpack _). vm_compute. exact I.
  - vm_compute. reflexivity.
  - vm_compute. reflexivity.
Qed.

(** ** The analytics injector *)

(** C3: with the flag false the context comes back as it was; with the
    flag true the metadata-tags string is the prior string (the empty
    string when the key is absent) followed by the snippet, and nothing
    else of the context or of the world changes. *)
Theorem add_ga_javascript_metatags app pagename templatename
    (context : gmap string PyVal) w :
  (analytics (config app) = false ->
   add_ga_javascript app pagename templatename context w = (Ok context, w))
  /\ (analytics (config app) = true ->
      forall prior,
        context !! "metatags" = Some (PyStr prior)
        \/ (context !! "metatags" = None /\ prior = EmptyString) ->
        add_ga_javascript app pagename templatename context w
        = (Ok (<["metatags" := PyStr (prior +:+ ga_snippet)]> context), w)).
Proof.
  unfold add_ga_javascript. split.
  - by intros ->.
  - intros -> prior [H|[H ->]]; rewrite H; done.
Qed.

Lemma add_ga_javascript_metatags_witness :
  add_ga_javascript (Sample.app true false [".rst"]) "bson_t" "page.html"
    (<["metatags" := PyStr "<meta>"]> ∅) (Sample.world [] [])
  = (Ok (<["metatags" := PyStr "<meta>"]> ∅), Sample.world [] [])
  /\ add_ga_javascript (Sample.app true true [".rst"]) "bson_t" "page.html"
       (<["metatags" := PyStr "<meta>"]> ∅) (Sample.world [] [])
     = (Ok (<["metatags" := PyStr ("<meta>" +:+ ga_snippet)]>
              (<["metatags" := PyStr "<meta>"]> ∅)),
        Sample.world [] [])
  /\ add_ga_javascript (Sample.app true true [".rst"]) "bson_t" "page.html"
       ∅ (Sample.world [] [])
     = (Ok (<["metatags" := PyStr (EmptyString +:+ ga_snippet)]> ∅),
        Sample.world [] []).
Proof.
  split_and!.
  - apply (add_ga_javascript_metatags (Sample.app true false [".rst"])).
    reflexivity.
  - apply (add_ga_javascript_metatags (Sample.app true true [".rst"]));
      [reflexivity|].
    left. vm_compute. reflexivity.
  - apply (add_ga_javascript_metatags (Sample.app true true [".rst"]));
      [reflexivity|].
    right. split; reflexivity.
Defined.

(** ** The [versionlist] directive *)

Lemma split_go_nonempty sep s cur : Str.split_go sep s cur <> [].
Proof.
  revert cur. induction s as [|c s IH]; intros cur; simpl; [done|].
  by destruct (Ascii.eqb c sep).
Qed.

(** C4: for the body [libmongoc] and the list "1.0,2.0,3.0" the directive
    returns the header, whose first link is the latest release and
    targets version 1.0, and a bulleted list of three items, one per
    version, in the order of the variable. *)
Theorem versionlist_libmongoc rest w :
  environ w !! "LIBMONGOC_VERSION_LIST" = Some "1.0,2.0,3.0" ->
  VersionList.run ("libmongoc" :: rest) w
  = (Ok [ paragraph
            [ paragraph
                [reference false
                   "https://www.mongoc.org/libmongoc/1.0/index.html"
                   [Text "Latest Release (1.0)"]];
              paragraph
                [reference false
                   "https://s3.amazonaws.com/mciuploads/mongo-c-driver/docs/libmongoc/latest/index.html"
                   [Text "Current Development (master)"]] ];
          bullet_list
            [ list_item
                [paragraph
                   [reference false
                      "https://www.mongoc.org/libmongoc/1.0/index.html"
                      [Text "1.0"]]];
              list_item
                [paragraph
                   [reference false
                      "https://www.mongoc.org/libmongoc/2.0/index.html"
                      [Text "2.0"]]];
              list_item
                [paragraph
                   [reference false
                      "https://www.mongoc.org/libmongoc/3.0/index.html"
                      [Text "3.0"]]] ] ],
     w).
Proof.
  intros Henv. unfold VersionList.run.
  rewrite String.eqb_refl. cbn [negb andb]. unfold bind, get_world.
  change (Str.upper "libmongoc" +:+ "_VERSION_LIST")
    with "LIBMONGOC_VERSION_LIST".
  rewrite Henv. reflexivity.
Qed.

Lemma versionlist_libmongoc_witness :
  exists header item1 item2 item3,
    VersionList.run ["libmongoc"]
      (Sample.world [] [("LIBMONGOC_VERSION_LIST", "1.0,2.0,3.0")])
    = (Ok [header; bullet_list [item1; item2; item3]],
       Sample.world [] [("LIBMONGOC_VERSION_LIST", "1.0,2.0,3.0")]).
Proof.
  do 4 eexists.
  apply (versionlist_libmongoc []
           (Sample.world [] [("LIBMONGOC_VERSION_LIST", "1.0,2.0,3.0")])).
  vm_compute. reflexivity.
Defined.

(** C5: with a body whose first line is neither [libmongoc] nor
    [libbson], or with the variable of the library unset, the directive
    prints one diagnostic and returns no node; it does not raise and
    changes nothing else. *)
Theorem versionlist_degrades content0 rest w :
  (content0 <> "libmongoc" /\ content0 <> "libbson")
  \/ environ w !! (Str.upper content0 +:+ "_VERSION_LIST") = None ->
  exists msg,
    VersionList.run (content0 :: rest) w
    = (Ok [], with_stdout w (stdout w ++ [msg])).
Proof.
  intros H. unfold VersionList.run.
  destruct (String.eqb_spec content0 "libmongoc") as [E1|N1];
    destruct (String.eqb_spec content0 "libbson") as [E2|N2]; simpl;
    try (destruct H as [[? ?]|H]; [done|]);
    try (unfold bind, get_world; rewrite H; by eexists).
  by eexists.
Qed.

Lemma versionlist_degrades_witness :
  (exists msg,
     VersionList.run ["unknown"]
       (Sample.world [] [("LIBMONGOC_VERSION_LIST", "1.0,2.0,3.0")])
     = (Ok [],
        with_stdout
          (Sample.world [] [("LIBMONGOC_VERSION_LIST", "1.0,2.0,3.0")])
          ([] ++ [msg])))
  /\ (exists msg,
        VersionList.run ["libbson"]
          (Sample.world [] [("LIBMONGOC_VERSION_LIST", "1.0,2.0,3.0")])
        = (Ok [],
           with_stdout
             (Sample.world [] [("LIBMONGOC_VERSION_LIST", "1.0,2.0,3.0")])
             ([] ++ [msg]))).
Proof.
  split.
  - apply (versionlist_degrades "unknown" []
             (Sample.world [] [("LIBMONGOC_VERSION_LIST", "1.0,2.0,3.0")])).
    left. split; discriminate.
  - apply (versionlist_degrades "libbson" []
             (Sample.world [] [("LIBMONGOC_VERSION_LIST", "1.0,2.0,3.0")])).
    right. vm_compute. reflexivity.
Defined.

(** C10: with an empty body the directive raises [IndexError] on
    [self.content[0]]; with a body of at least one line it returns. *)
Theorem versionlist_empty_body w :
  VersionList.run [] w = (Raise IndexError, w)
  /\ (forall content0 rest,
        exists nodes w', VersionList.run (content0 :: rest) w = (Ok nodes, w')).
Proof.
  split; [done|]. intros content0 rest. unfold VersionList.run.
  destruct (negb _ && negb _); [by do 2 eexists|].
  unfold bind, get_world.
  destruct (environ w !! _) as [value|]; [|by do 2 eexists].
  destruct (Str.split "," value) eqn:Hs; [|by do 2 eexists].
  by apply split_go_nonempty in Hs.
Qed.

(** ** Strings *)

Lemma append_String c s t : String c s +:+ t = String c (s +:+ t).
Proof. reflexivity. Qed.

Lemma append_nil_r s : s +:+ EmptyString = s.
Proof.
  induction s as [|c s IH]; [done|]. by rewrite append_String, IH.
Qed.

Lemma append_assoc s t u : (s +:+ t) +:+ u = s +:+ (t +:+ u).
Proof.
  induction s as [|c s IH]; [done|]. by rewrite !append_String, IH.
Qed.

Lemma length_append s t :
  String.length (s +:+ t) = (String.length s + String.length t)%nat.
Proof.
  induction s as [|c s IH]; [done|]. rewrite append_String. simpl.
  by rewrite IH.
Qed.

Lemma string_of_list_ascii_app l k :
  string_of_list_ascii (l ++ k)%list
  = string_of_list_ascii l +:+ string_of_list_ascii k.
Proof.
  induction l as [|c l IH]; [done|]. simpl. by rewrite IH, append_String.
Qed.

Lemma list_ascii_of_string_append s t :
  list_ascii_of_string (s +:+ t)
  = (list_ascii_of_string s ++ list_ascii_of_string t)%list.
Proof.
  induction s as [|c s IH]; [done|]. rewrite append_String. simpl.
  by rewrite IH.
Qed.

Lemma rev_String c s : Str.rev (String c s) = Str.rev s +:+ String c EmptyString.
Proof. unfold Str.rev. simpl. by rewrite string_of_list_ascii_app. Qed.

Lemma rev_append s t : Str.rev (s +:+ t) = Str.rev t +:+ Str.rev s.
Proof.
  unfold Str.rev.
  by rewrite list_ascii_of_string_append, rev_app_distr,
    string_of_list_ascii_app.
Qed.

(** ** Paths *)

Lemma all_chars_forallb f s :
  Str.all_chars f s = forallb f (list_ascii_of_string s).
Proof. induction s as [|c s IH]; simpl; [done|]. by rewrite IH. Qed.

Lemma all_chars_rev f s : Str.all_chars f (Str.rev s) = Str.all_chars f s.
Proof.
  unfold Str.rev. rewrite !all_chars_forallb, list_ascii_of_string_of_list_ascii.
  induction (list_ascii_of_string s) as [|c l IH]; simpl; [done|].
  rewrite forallb_app, IH. simpl. destruct (f c), (forallb f l); done.
Qed.

(** The fields of [split] hold no separator. *)
Lemma split_go_no_sep s : forall cur,
  Str.all_chars Str.no_slash cur = true ->
  Forall (fun x => Str.all_chars Str.no_slash x = true) (Str.split_go "/" s cur).
Proof.
  induction s as [|c s IH]; intros cur Hcur; simpl.
  - constructor; [|constructor]. by rewrite all_chars_rev.
  - destruct (Ascii.eqb c "/") eqn:Hc.
    + constructor; [by rewrite all_chars_rev|]. by apply IH.
    + apply IH. simpl. unfold Str.no_slash at 1. by rewrite Hc.
Qed.

Lemma of_str_parts_no_slash s :
  Forall (fun x => Str.all_chars Str.no_slash x = true) (parts (PathOps.of_str s)).
Proof.
  unfold PathOps.of_str. simpl.
  pose proof (split_go_no_sep s EmptyString eq_refl) as H.
  rewrite Forall_forall in H. apply Forall_forall. intros x Hx.
  apply H. apply list_elem_of_In in Hx. apply List.filter_In in Hx as [Hx _].
  by apply list_elem_of_In.
Qed.

(** A string without separator is one field. *)
Lemma split_go_one s : forall cur,
  Str.all_chars Str.no_slash s = true ->
  Str.split_go "/" s cur
  = [string_of_list_ascii
       (List.rev (list_ascii_of_string cur) ++ list_ascii_of_string s)%list].
Proof.
  induction s as [|c s IH]; intros cur Hs; simpl.
  - unfold Str.rev. by rewrite app_nil_r.
  - simpl in Hs. apply andb_prop in Hs as [Hc Hs]. unfold Str.no_slash in Hc.
    apply negb_true_iff in Hc. rewrite Hc, IH by done. simpl.
    by rewrite <- app_assoc.
Qed.

Lemma split_one s :
  Str.all_chars Str.no_slash s = true -> Str.split "/" s = [s].
Proof.
  intros Hs. unfold Str.split. rewrite split_go_one by done. simpl.
  by rewrite string_of_list_ascii_of_string.
Qed.

Lemma all_chars_append f s t :
  Str.all_chars f (s +:+ t) = Str.all_chars f s && Str.all_chars f t.
Proof.
  induction s as [|c s IH]; simpl; [done|]. rewrite IH. by destruct (f c).
Qed.

(** [slug + ".html"] is one component of a relative path. *)
Lemma of_str_html b :
  Str.all_chars Str.no_slash b = true ->
  PathOps.of_str (b +:+ ".html") = mkPath EmptyString [b +:+ ".html"].
Proof.
  intros Hb. unfold PathOps.of_str. rewrite split_one.
  2:{ rewrite all_chars_append, Hb. done. }
  assert (PathOps.parse_root (b +:+ ".html") = EmptyString) as ->.
  { unfold PathOps.parse_root. destruct b as [|c b]; [done|]. simpl in *.
    apply andb_prop in Hb as [Hc _]. unfold Str.no_slash in Hc.
    apply negb_true_iff in Hc. by rewrite Hc. }
  assert (PathOps.is_component (b +:+ ".html") = true) as Hcomp.
  { destruct b as [|c [|c' b]]; [done| |].
    - unfold PathOps.is_component. simpl.
      destruct (Ascii.eqb c "."); done.
    - unfold PathOps.is_component. simpl.
      destruct (Ascii.eqb c "."); done. }
  simpl. by rewrite Hcomp.
Qed.

Lemma div_html p b :
  Str.all_chars Str.no_slash b = true ->
  PathOps.div p (b +:+ ".html")
  = mkPath (root p) (parts p ++ [b +:+ ".html"])%list.
Proof. intros Hb. unfold PathOps.div. by rewrite of_str_html. Qed.

(** From [dir/b/index.html] to [dir/b.html]. *)
Lemma redirect_file_path r ds b file :
  Str.all_chars Str.no_slash b = true ->
  let out := mkPath r (ds ++ [b; file])%list in
  PathOps.div (PathOps.parent (PathOps.parent out))
              (PathOps.name (PathOps.parent out) +:+ ".html")
  = mkPath r (ds ++ [b +:+ ".html"])%list.
Proof.
  intros Hb out. subst out. unfold PathOps.parent at 2 3. simpl.
  replace (ds ++ [b; file])%list with ((ds ++ [b]) ++ [file])%list
    by (by rewrite <- app_assoc).
  rewrite removelast_last. unfold PathOps.name, PathOps.parent. simpl.
  rewrite last_last, removelast_last. by rewrite div_html.
Qed.

(** ** The redirect generator *)

Lemma generate_html_redirs_skip hp app page templatename
    (context : gmap string PyVal) :
  is_DirectoryHTMLBuilder (builder app) = false
  \/ is_Some (context !! redirect_marker)
  \/ page = "index"
  \/ Str.endswith page ".index" = true ->
  generate_html_redirs hp app page templatename context = ret tt.
Proof.
  unfold generate_html_redirs. intros [H|[H|[H|H]]].
  - by rewrite H.
  - rewrite (bool_decide_eq_true_2 _ H). by rewrite orb_true_r.
  - subst page. simpl. by destruct (negb _ || bool_decide _).
  - rewrite H, orb_true_r. by destruct (negb _ || bool_decide _).
Qed.

Lemma redirect_context_marked page :
  is_Some ((<["target" := PyStr page]>
              (<[redirect_marker := PyInt 1]> ∅) : gmap string PyVal)
           !! redirect_marker).
Proof.
  rewrite lookup_insert_ne by done. rewrite lookup_insert_eq. by eexists.
Qed.

(** The call the generator makes for a page written to
    [dir/b/index.html]. *)
Lemma generate_html_redirs_call hp app page templatename
    (context : gmap string PyVal) r ds b :
  is_DirectoryHTMLBuilder (builder app) = true ->
  context !! redirect_marker = None ->
  page <> "index" ->
  Str.endswith page ".index" = false ->
  PathOps.of_str (get_outfilename (builder app) page)
  = mkPath r (ds ++ [b; "index.html"])%list ->
  generate_html_redirs hp app page templatename context
  = (hp ("redirect-for-" +:+ page)
        (<["target" := PyStr page]> (<[redirect_marker := PyInt 1]> ∅))
        (PathOps.to_str (PathOps.div (module_dir app) "redirect.t.html"))
        (PathOps.to_str (mkPath r (ds ++ [b +:+ ".html"])%list)) ;;;
     log_debug ("Wrote redirect: " +:+ doc2path (project app) page
                +:+ " -> " +:+ page)).
Proof.
  intros Hb Hctx Hpage Hend Hout. unfold generate_html_redirs.
  rewrite Hb, Hend, Hout. rewrite bool_decide_eq_false_2.
  2:{ rewrite Hctx. by intros [? [=]]. }
  apply String.eqb_neq in Hpage. rewrite Hpage. cbn [negb orb].
  rewrite redirect_file_path; [done|].
  pose proof (of_str_parts_no_slash (get_outfilename (builder app) page)) as H.
  rewrite Hout in H. simpl in H. rewrite Forall_forall in H.
  apply H. apply list_elem_of_In, in_or_app. right. by left.
Qed.

(** With the primitive of the framework and analytics off, the world
    after the generator has one more page, the redirect, and one more
    line in the debug log. *)
Lemma generate_html_redirs_framework fuel app page templatename
    (context : gmap string PyVal) r ds b w :
  is_DirectoryHTMLBuilder (builder app) = true ->
  context !! redirect_marker = None ->
  page <> "index" ->
  Str.endswith page ".index" = false ->
  PathOps.of_str (get_outfilename (builder app) page)
  = mkPath r (ds ++ [b; "index.html"])%list ->
  analytics (config app) = false ->
  generate_html_redirs (Framework.handle_page (S fuel) app)
    app page templatename context w
  = (Ok tt,
     mkWorld (fs w) (environ w) (man_pages w) (stdout w)
       (debug_log w
        ++ ["Wrote redirect: " +:+ doc2path (project app) page
            +:+ " -> " +:+ page])
       (written w
        ++ [mkPageWrite ("redirect-for-" +:+ page)
              (<["target" := PyStr page]> (<[redirect_marker := PyInt 1]> ∅)
               ∪ globalcontext (builder app))
              (PathOps.to_str
                 (PathOps.div (module_dir app) "redirect.t.html"))
              (PathOps.to_str (mkPath r (ds ++ [b +:+ ".html"])%list))])).
Proof.
  intros Hb Hctx Hpage Hend Hout Hga.
  rewrite (generate_html_redirs_call _ _ _ _ _ r ds b) by done.
  unfold bind at 1. simpl Framework.handle_page.
  rewrite generate_html_redirs_skip.
  2:{ right. left. apply lookup_union_is_Some. left.
      apply redirect_context_marked. }
  unfold bind, add_ga_javascript. rewrite Hga. reflexivity.
Qed.

(** *** The output file of a page [a/b] *)









(** The page-writing primitive on a context that carries the marker: the
    listener returns at once, and at most the page itself is written. *)
Lemma handle_page_marked fuel app name (addctx : gmap string PyVal)
    templatename out w :
  is_Some (addctx !! redirect_marker) ->
  exists new,
    written (Framework.handle_page fuel app name addctx templatename out w).2
    = (written w ++ new)%list
    /\ (length new <= 1)%nat
    /\ Forall (fun pw => is_Some (pw_context pw !! redirect_marker)) new.
Proof.
  intros Hm. destruct fuel as [|fuel]; simpl.
  { no_write. }
  assert (is_Some ((addctx ∪ globalcontext (builder app)) !! redirect_marker))
    as Hm'.
  { apply lookup_union_is_Some. by left. }
  rewrite generate_html_redirs_skip by (right; by left).
  unfold bind at 1. simpl. unfold bind, add_ga_javascript.
  destruct (analytics (config app)); simpl.
  - destruct (default _ _) as [s| |]; simpl.
    + eexists [_]. split_and!; [done|simpl; lia|].
      constructor; [|constructor]. simpl.
      by rewrite lookup_insert_ne.
    + no_write.
    + no_write.
  - eexists [_]. split_and!; [done|simpl; lia|].
    constructor; [|constructor]. done.
Qed.

(** The generator returns at once or makes one call of the primitive. *)
Lemma generate_html_redirs_cases hp app page templatename
    (context : gmap string PyVal) :
  generate_html_redirs hp app page templatename context = ret tt
  \/ exists tmpl out msg,
       generate_html_redirs hp app page templatename context
       = (hp ("redirect-for-" +:+ page)
             (<["target" := PyStr page]> (<[redirect_marker := PyInt 1]> ∅))
             tmpl out ;;;
          log_debug msg).
Proof.
  unfold generate_html_redirs.
  destruct (negb _ || bool_decide _); [by left|].
  destruct (String.eqb page "index" || _); [by left|].
  right. by do 3 eexists.
Qed.

(** C7: a context that carries the marker makes the generator return
    without a call; the context the generator passes to the page-writing
    primitive carries the marker, so the generator returns without a call
    on the context the primitive builds from it, whatever the global
    context; and with the primitive of the framework, whatever the depth
    allowed, the generator writes at most one page, under a context that
    carries the marker. *)
Theorem redirect_marker_guard hp app page templatename
    (context : gmap string PyVal) :
  (is_Some (context !! redirect_marker) ->
   generate_html_redirs hp app page templatename context = ret tt)
  /\ (generate_html_redirs hp app page templatename context = ret tt
      \/ exists name ctx tmpl out msg,
           is_Some (ctx !! redirect_marker)
           /\ generate_html_redirs hp app page templatename context
              = (hp name ctx tmpl out ;;; log_debug msg)
           /\ forall hp' app' templatename' (global : gmap string PyVal),
                generate_html_redirs hp' app' name templatename'
                                     (ctx ∪ global)
                = ret tt)
  /\ (forall fuel w,
        exists new,
          written (generate_html_redirs (Framework.handle_page fuel app)
                     app page templatename context w).2
          = (written w ++ new)%list
          /\ (length new <= 1)%nat
          /\ Forall (fun pw => is_Some (pw_context pw !! redirect_marker))
                    new).
Proof.
  split_and!.
  - intros H. apply generate_html_redirs_skip. right. by left.
  - destruct (generate_html_redirs_cases hp app page templatename context)
      as [H|(tmpl & out & msg & H)]; [by left|].
    right. do 5 eexists. split_and!; [apply (redirect_context_marked page)
                                     |exact H|].
    intros hp' app' t' global. apply generate_html_redirs_skip.
    right. left. apply lookup_union_is_Some. left.
    apply redirect_context_marked.
  - intros fuel w.
    destruct (generate_html_redirs_cases (Framework.handle_page fuel app)
                app page templatename context)
      as [H|(tmpl & out & msg & H)]; rewrite H.
    { no_write. }
    unfold bind.
    destruct (handle_page_marked fuel app ("redirect-for-" +:+ page) _
                tmpl out w (redirect_context_marked page))
      as (new & Hw & Hlen & Hall).
    destruct (Framework.handle_page fuel app _ _ tmpl out w) as [[[]|e] w'];
      by exists new.
Qed.

Lemma redirect_marker_guard_witness :
  generate_html_redirs (Framework.handle_page 3 (Sample.app true false [".rst"]))
    (Sample.app true false [".rst"]) "redirect-for-a/b" "redirect.t.html"
    (<["target" := PyStr "a/b"]> (<[redirect_marker := PyInt 1]> ∅))
  = ret tt.
Proof.
  apply (redirect_marker_guard
           (Framework.handle_page 3 (Sample.app true false [".rst"]))
           (Sample.app true false [".rst"]) "redirect-for-a/b"
           "redirect.t.html").
  apply (bool_decide_unpack _). vm_compute. exact I.
Defined.

(** ** The model on small inputs *)

Example splitlines_ex :
  Str.splitlines "a
b

c
" = ["a"; "b"; ""; "c"].
Proof. reflexivity. Qed.

Example match_ex1 : Re.match_man_page ":man_page: bson_t" = Some "bson_t".
Proof. reflexivity. Qed.

Example match_ex2 : Re.match_man_page ":man_page:   " = Some " ".
Proof. reflexivity. Qed.

Example match_ex3 : Re.match_man_page ":man_page: " = None.
Proof. reflexivity. Qed.

Example match_ex4 : Re.match_man_page " :man_page: x" = None.
Proof. reflexivity. Qed.

Example split_ex : Str.split "," "1.0,2.0,,3.0" = ["1.0"; "2.0"; ""; "3.0"].
Proof. reflexivity. Qed.

Example suffix_ex :
  List.map (fun s => PathOps.suffix (PathOps.of_str s))
    ["/docs/bson_t.rst"; "/docs/.rst"; "/docs/a.b.rst"; "/docs/a.rst."]
  = [".rst"; EmptyString; ".rst"; EmptyString].
Proof. reflexivity. Qed.

Example path_ex :
  List.map (fun s => PathOps.to_str (PathOps.of_str s))
    ["//a/./b//c/"; "///a"; "a/b.html"; "/"]
  = ["//a/b/c"; "/a"; "a/b.html"; "/"].
Proof. reflexivity. Qed.

(** A page written by the framework under the directory-style builder:
    the redirect first, then the page, and no redirect for the redirect. *)
Example handle_page_ex :
  List.map pw_outfilename
    (written
       (Framework.handle_page 5 (Sample.app true false [".rst"]) "a/b" ∅
          "page.html" "/docs/_build/dirhtml/a/b/index.html"
          (Sample.world [] [])).2)
  = ["/docs/_build/dirhtml/a/b.html"; "/docs/_build/dirhtml/a/b/index.html"].
Proof. vm_compute. reflexivity. Qed.

Example versionlist_libbson_ex :
  (VersionList.run ["libbson"]
     (Sample.world [] [("LIBMONGOC_VERSION_LIST", "1.0")])).1
  = Ok [].
Proof. vm_compute. reflexivity. Qed.

(** * Further properties of the module *)

(** ** The collector only appends *)

Lemma man_name_of_nonempty w f X : man_name_of w f = Some X -> X <> EmptyString.
Proof.
  unfold man_name_of. destruct (fs w !! f) as [[text|]|]; [|done..].
  intros (_ & l & _ & _ & _ & Hl)%first_man_page_Some.
  by apply match_man_page_nonempty in Hl.
Qed.

Lemma collect_man_loop_frame proj fl : forall w0 l,
  Forall (fun f => is_file w0 f = true) fl ->
  exists new r,
    for_each fl (_collect_man_body proj) (with_man_pages w0 l)
    = (r, with_man_pages w0 (l ++ new))
    /\ Forall collector_entry new.
Proof.
  induction fl as [|f fl IH]; intros w0 l Hfiles; simpl.
  - exists [], (Ok tt). by rewrite app_nil_r.
  - inversion Hfiles as [|? ? Hf Hfiles']; subst.
    unfold bind at 1. rewrite collect_man_body_run by done.
    change (man_name_of (with_man_pages w0 l) f) with (man_name_of w0 f).
    destruct (man_name_of w0 f) as [X|] eqn:HX; [|by apply IH].
    destruct (path2doc proj (PathOps.to_str f)) as [[|c d]|].
    + exists [], (Raise AssertionError). by rewrite app_nil_r.
    + rewrite with_man_pages_twice. simpl man_pages.
      destruct (IH w0 (l ++ [(String c d, X, EmptyString, [author], 3%Z)])%list
                  Hfiles') as (new & r & Hrun & Hnew).
      exists ((String c d, X, EmptyString, [author], 3%Z) :: new), r.
      rewrite Hrun, <- app_assoc. split; [done|].
      constructor; [|done]. exists (String c d), X.
      split_and!; [done|done|]. by eapply man_name_of_nonempty.
    + exists [], (Raise AssertionError). by rewrite app_nil_r.
Qed.

(** X1: whether the collector returns or stops at the assertion, it has
    changed nothing but [man_pages]; the list holds what it held,
    followed by what was appended, and every appended entry is well
    formed: a docname and a name that are not empty, no description, the
    one author, section 3. *)
Theorem collect_man_append_only app config w :
  exists new r,
    _collect_man app config w
    = (r, with_man_pages w (man_pages w ++ new))
    /\ Forall collector_entry new.
Proof.
  pose proof (collect_man_loop_frame
                (new_Project app (srcdir app) (source_suffix config))
                (rst_files w (PathOps.of_str (srcdir app)))
                w (man_pages w)) as H.
  rewrite with_man_pages_same in H. apply H.
  eapply Forall_impl; [apply rst_files_are_rst|]. by intros f [Hf _].
Qed.

(** ** The collector run again *)

Lemma collect_man_ok app config w :
  all_resolve w (new_Project app (srcdir app) (source_suffix config))
    (rst_files w (PathOps.of_str (srcdir app))) ->
  _collect_man app config w
  = (Ok tt,
     with_man_pages w
       (man_pages w
        ++ flat_map
             (man_page_contribution w
                (new_Project app (srcdir app) (source_suffix config)))
             (rglob w (PathOps.of_str (srcdir app))))).
Proof.
  intros Hres. rewrite collect_man_unfold.
  pose proof (collect_man_loop_ok _ _ w (man_pages w)
                (rst_files_are_rst w _) Hres) as Hrun.
  rewrite with_man_pages_same in Hrun. rewrite Hrun.
  unfold rst_files. by rewrite flat_map_contribution_rst.
Qed.

(** X2: the list is never cleared and nothing is looked up in it: a
    second run of the collector on the same files appends the same
    entries once more. *)
Theorem collect_man_twice app config w :
  all_resolve w (new_Project app (srcdir app) (source_suffix config))
    (rst_files w (PathOps.of_str (srcdir app))) ->
  (_collect_man app config ;;; _collect_man app config) w
  = (Ok tt,
     with_man_pages w
       (man_pages w
        ++ flat_map
             (man_page_contribution w
                (new_Project app (srcdir app) (source_suffix config)))
             (rglob w (PathOps.of_str (srcdir app)))
        ++ flat_map
             (man_page_contribution w
                (new_Project app (srcdir app) (source_suffix config)))
             (rglob w (PathOps.of_str (srcdir app))))).
Proof.
  intros Hres. rewrite (bind_ok _ _ _ _ _ (collect_man_ok app config w Hres)).
  rewrite collect_man_ok by exact Hres.
  rewrite with_man_pages_twice. simpl man_pages. by rewrite <- app_assoc.
Qed.

Lemma collect_man_twice_witness :
  (_collect_man (Sample.app true false [".rst"]) (mkConfig [".rst"] false) ;;;
   _collect_man (Sample.app true false [".rst"]) (mkConfig [".rst"] false))
    (Sample.world [("/docs/mongoc_client_t.rst", Sample.one_marker)] [])
  = (Ok tt,
     with_man_pages
       (Sample.world [("/docs/mongoc_client_t.rst", Sample.one_marker)] [])
       [("mongoc_client_t", "mongoc_client_t", EmptyString, [author], 3%Z);
        ("mongoc_client_t", "mongoc_client_t", EmptyString, [author], 3%Z)]).
Proof.
  refine (collect_man_twice
            (Sample.app true false [".rst"]) (mkConfig [".rst"] false)
            (Sample.world [("/docs/mongoc_client_t.rst", Sample.one_marker)] [])
            _).
  apply (bool_decide_unpack _). vm_compute. exact I.
Defined.

(** ** Splitting and joining *)

Lemma split_go_fields sep s : forall cur,
  Str.all_chars (not_char sep) cur = true ->
  Forall (fun x => Str.all_chars (not_char sep) x = true)
         (Str.split_go sep s cur).
Proof.
  induction s as [|c s IH]; intros cur Hcur; simpl.
  - constructor; [|constructor]. by rewrite all_chars_rev.
  - destruct (Ascii.eqb c sep) eqn:Hc.
    + constructor; [by rewrite all_chars_rev|]. by apply IH.
    + apply IH. simpl. unfold not_char at 1. by rewrite Hc.
Qed.

Lemma join_cons sep x l :
  l <> [] -> Str.join sep (x :: l) = x +:+ sep +:+ Str.join sep l.
Proof. by destruct l. Qed.

(** [sep.join(s.split(sep)) == s] *)
Lemma join_split_go sep s : forall cur,
  Str.join (String sep EmptyString) (Str.split_go sep s cur)
  = Str.rev cur +:+ s.
Proof.
  induction s as [|c s IH]; intros cur.
  - simpl. by rewrite append_nil_r.
  - cbn [Str.split_go]. destruct (Ascii.eqb_spec c sep) as [->|Hc].
    + rewrite join_cons by apply split_go_nonempty. by rewrite IH.
    + by rewrite IH, rev_String, append_assoc.
Qed.

Lemma join_split sep s :
  Str.join (String sep EmptyString) (Str.split sep s) = s.
Proof. unfold Str.split. by rewrite join_split_go. Qed.

(** ** The [versionlist] directive on any list of versions *)

(** X3: for either library, when its variable is set the directive
    returns the header and the bulleted list and leaves the world as it
    was (nothing is printed).  The versions are the fields of the
    variable: none holds a comma, and joined by commas they give the
    variable back, so that nothing is trimmed, dropped, reordered or
    merged.  There is at least one, the first, which the latest-release
    link targets, even when it is empty. *)
Theorem versionlist_nodes content0 rest var value w :
  (content0 = "libmongoc" /\ var = "LIBMONGOC_VERSION_LIST")
  \/ (content0 = "libbson" /\ var = "LIBBSON_VERSION_LIST") ->
  environ w !! var = Some value ->
  exists latest others,
    Str.join "," (latest :: others) = value
    /\ Forall (fun v => Str.all_chars (not_char ",") v = true)
              (latest :: others)
    /\ VersionList.run (content0 :: rest) w
       = (Ok [ paragraph
                 [ paragraph
                     [nodes_reference
                        ("Latest Release (" +:+ latest +:+ ")") false
                        (VersionList.release_uri content0 latest)];
                   paragraph
                     [nodes_reference "Current Development (master)" false
                        (VersionList.master_uri content0)] ];
               bullet_list
                 (List.map (VersionList.version_item content0)
                           (latest :: others)) ],
          w).
Proof.
  intros Hlib Henv.
  pose proof (join_split "," value) as Hjoin.
  pose proof (split_go_fields "," value EmptyString eq_refl) as Hfields.
  fold (Str.split "," value) in Hfields.
  destruct (Str.split "," value) as [|latest others] eqn:Hs.
  { by apply split_go_nonempty in Hs. }
  exists latest, others. split_and!; [done|done|].
  unfold VersionList.run.
  destruct Hlib as [[-> ->]|[-> ->]]; cbn [String.eqb Ascii.eqb Bool.eqb negb andb];
    unfold bind, get_world;
    [change (Str.upper "libmongoc" +:+ "_VERSION_LIST")
       with "LIBMONGOC_VERSION_LIST"
    |change (Str.upper "libbson" +:+ "_VERSION_LIST")
       with "LIBBSON_VERSION_LIST"];
    rewrite Henv, Hs; reflexivity.
Qed.

Lemma versionlist_nodes_witness :
  exists latest others,
    Str.join "," (latest :: others) = "1.9.0,,1.8.2 "
    /\ Forall (fun v => Str.all_chars (not_char ",") v = true)
              (latest :: others)
    /\ VersionList.run ["libbson"]
         (Sample.world [] [("LIBBSON_VERSION_LIST", "1.9.0,,1.8.2 ")])
       = (Ok [ paragraph
                 [ paragraph
                     [nodes_reference
                        ("Latest Release (" +:+ latest +:+ ")") false
                        (VersionList.release_uri "libbson" latest)];
                   paragraph
                     [nodes_reference "Current Development (master)" false
                        (VersionList.master_uri "libbson")] ];
               bullet_list
                 (List.map (VersionList.version_item "libbson")
                           (latest :: others)) ],
          Sample.world [] [("LIBBSON_VERSION_LIST", "1.9.0,,1.8.2 ")]).
Proof.
  apply (versionlist_nodes "libbson" [] "LIBBSON_VERSION_LIST"
           "1.9.0,,1.8.2 "
           (Sample.world [] [("LIBBSON_VERSION_LIST", "1.9.0,,1.8.2 ")])).
  - right. split; reflexivity.
  - vm_compute. reflexivity.
Defined.

(** ** What a man-page name looks like *)

Lemma strip_prefix_Some p : forall s r,
  Str.strip_prefix p s = Some r -> s = p +:+ r.
Proof.
  induction p as [|a p IH]; intros s r; simpl.
  - by intros [= ->].
  - destruct s as [|b s]; [done|].
    destruct (Ascii.eqb_spec a b) as [->|]; [|done].
    intros ->%IH. done.
Qed.

Lemma no_linebreak_is_dot c : no_linebreak c = true -> Str.is_dot c = true.
Proof.
  unfold no_linebreak, Str.is_linebreak, Str.is_dot.
  destruct (Nat.eqb_spec (Str.code c) 10) as [->|]; done.
Qed.

Lemma all_chars_impl (f g : ascii -> bool) s :
  (forall c, f c = true -> g c = true) ->
  Str.all_chars f s = true -> Str.all_chars g s = true.
Proof.
  intros Hfg. induction s as [|c s IH]; simpl; [done|].
  intros [Hc Hs]%andb_prop. by rewrite (Hfg c Hc), IH.
Qed.

(** The lines of [splitlines] hold no line boundary. *)
Lemma splitlines_go_no_linebreak n : forall s cur,
  (String.length s <= n)%nat ->
  Str.all_chars no_linebreak cur = true ->
  Forall (fun l => Str.all_chars no_linebreak l = true)
         (Str.splitlines_go s cur).
Proof.
  induction n as [|n IH]; intros s cur Hn Hcur.
  - destruct s; [|simpl in Hn; lia]. simpl.
    destruct cur; [constructor|].
    constructor; [|constructor]. by rewrite all_chars_rev.
  - destruct s as [|c s]; simpl.
    + destruct cur; [constructor|].
      constructor; [|constructor]. by rewrite all_chars_rev.
    + simpl in Hn. destruct (Str.is_linebreak c) eqn:Hc.
      * destruct s as [|c' s'].
        { constructor; [|constructor]. by rewrite all_chars_rev. }
        simpl in Hn.
        destruct ((Str.code c =? 13)%nat && (Str.code c' =? 10)%nat).
        -- constructor; [by rewrite all_chars_rev|].
           apply IH; [lia|done].
        -- constructor; [by rewrite all_chars_rev|].
           apply IH; [simpl; lia|done].
      * apply IH; [lia|]. simpl. unfold no_linebreak at 1. by rewrite Hc.
Qed.

Lemma splitlines_no_linebreak text :
  Forall (fun l => Str.all_chars no_linebreak l = true) (Str.splitlines text).
Proof. by apply (splitlines_go_no_linebreak (String.length text)). Qed.

(** On a line without LF the group runs to the end of the line. *)
Lemma group_dot_plus_all s g :
  Str.all_chars Str.is_dot s = true -> Re.group_dot_plus s = Some g -> g = s.
Proof.
  intros Hs. unfold Re.group_dot_plus. rewrite take_while_all by done.
  destruct s; [done|]. by intros [= <-].
Qed.

Lemma space_plus_then_group_suffix s : forall g,
  Str.all_chars Str.is_dot s = true ->
  Re.space_plus_then_group s = Some g ->
  exists pre, s = pre +:+ g.
Proof.
  induction s as [|c s IH]; intros g Hs; simpl; [done|].
  pose proof Hs as Hs'. simpl in Hs'. apply andb_prop in Hs' as [_ Htl].
  destruct (Str.is_space c).
  - destruct (Re.space_plus_then_group s) as [g'|] eqn:Hrec.
    + intros [= <-]. destruct (IH g' Htl eq_refl) as [pre ->].
      by exists (String c pre).
    + intros ->%group_dot_plus_all; [|done]. by exists EmptyString.
  - intros ->%group_dot_plus_all; [|done]. by exists EmptyString.
Qed.

Lemma match_man_page_suffix line g :
  Str.all_chars Str.is_dot line = true ->
  Re.match_man_page line = Some g ->
  exists pre,
    line = pre +:+ g /\ Str.startswith pre ":man_page:" = true.
Proof.
  intros Hline. unfold Re.match_man_page.
  destruct (Str.strip_prefix _ line) as [[|c s]|] eqn:Hp; [done| |done].
  apply strip_prefix_Some in Hp. subst line.
  rewrite all_chars_append in Hline. apply andb_prop in Hline as [_ Hs].
  simpl in Hs. apply andb_prop in Hs as [_ Hs].
  destruct (Str.is_space c); [|done].
  intros [pre ->]%space_plus_then_group_suffix; [|done].
  exists (":man_page:" +:+ String c pre). split; [|done].
  by rewrite append_assoc.
Qed.

(** X4: a name that the function returns for a file of text [text] is
    not empty, holds no line boundary, and is the end of a line of the
    text that starts with the marker: what follows the value on its
    line, trailing blanks included, belongs to the name.  The world is
    as it was. *)
Theorem file_man_page_name_shape p text g w w' :
  fs w !! p = Some (RegularFile text) ->
  _file_man_page_name p w = (Ok (Some g), w') ->
  w' = w
  /\ g <> EmptyString
  /\ Str.all_chars no_linebreak g = true
  /\ exists pre,
       (pre +:+ g) ∈ Str.splitlines text
       /\ Str.startswith pre ":man_page:" = true.
Proof.
  intros Hp. rewrite (file_man_page_name_lines _ _ _ Hp).
  intros [= Hg <-]. split; [done|].
  apply first_man_page_Some in Hg
    as (before & l & after & Hlines & _ & Hl).
  pose proof (splitlines_no_linebreak text) as Hnb.
  rewrite Hlines in Hnb. apply Forall_app in Hnb as [_ Hnb].
  apply Forall_cons in Hnb as [Hnb _].
  destruct (match_man_page_suffix l g) as (pre & -> & Hpre); [|done|].
  { eapply all_chars_impl; [apply no_linebreak_is_dot|done]. }
  split_and!.
  - by eapply match_man_page_nonempty.
  - rewrite all_chars_append in Hnb. by apply andb_prop in Hnb as [_ ?].
  - exists pre. split; [|done]. rewrite Hlines.
    apply list_elem_of_In, in_or_app. right. by left.
Qed.

Lemma file_man_page_name_shape_witness :
  Sample.world [("/docs/bson_t.rst", Sample.two_markers)] []
  = Sample.world [("/docs/bson_t.rst", Sample.two_markers)] []
  /\ "bson_t" <> EmptyString
  /\ Str.all_chars no_linebreak "bson_t" = true
  /\ exists pre,
       (pre +:+ "bson_t") ∈ Str.splitlines Sample.two_markers
       /\ Str.startswith pre ":man_page:" = true.
Proof.
  apply (file_man_page_name_shape (PathOps.of_str "/docs/bson_t.rst")
           Sample.two_markers "bson_t"
           (Sample.world [("/docs/bson_t.rst", Sample.two_markers)] [])).
  - vm_compute. reflexivity.
  - vm_compute. reflexivity.
Defined.

(** ** A marker followed by blanks only *)

Lemma space_plus_then_group_blank ws c :
  Str.all_chars Str.is_space ws = true ->
  Str.is_space c = true ->
  Str.is_dot c = true ->
  Re.space_plus_then_group (ws +:+ String c EmptyString)
  = Some (String c EmptyString).
Proof.
  intros Hws Hc Hdot. induction ws as [|a ws IH].
  - simpl. rewrite Hc. unfold Re.group_dot_plus. simpl. by rewrite Hdot.
  - simpl in Hws. apply andb_prop in Hws as [Ha Hws].
    rewrite append_String. simpl. by rewrite Ha, IH.
Qed.

(** X5: a matching line needs two characters after the marker.  When
    only white space follows the marker, [\s+] gives its last character
    back to the group: the man-page name of the file is that one blank.
    The marker alone, or followed by one character, matches nothing. *)
Theorem file_man_page_name_blank p text pre a ws c post w :
  fs w !! p = Some (RegularFile text) ->
  Str.splitlines text
  = (pre ++ (":man_page:" +:+ String a (ws +:+ String c EmptyString))
         :: post)%list ->
  Forall (fun x => Re.match_man_page x = None) pre ->
  Str.is_space a = true ->
  Str.all_chars Str.is_space ws = true ->
  Str.is_space c = true ->
  Str.is_dot c = true ->
  _file_man_page_name p w = (Ok (Some (String c EmptyString)), w)
  /\ Re.match_man_page ":man_page:" = None
  /\ (forall x, Re.match_man_page (":man_page:" +:+ String x EmptyString)
                = None).
Proof.
  intros Hp Hlines Hpre Ha Hws Hc Hdot. split_and!.
  - rewrite (file_man_page_name_lines _ _ _ Hp), Hlines.
    rewrite (first_man_page_found _ _ _ (String c EmptyString) Hpre); [done|].
    unfold Re.match_man_page. simpl. rewrite Ha.
    by apply space_plus_then_group_blank.
  - done.
  - intros x. unfold Re.match_man_page. simpl. by destruct (Str.is_space x).
Qed.

Lemma file_man_page_name_blank_witness :
  _file_man_page_name (PathOps.of_str "/docs/blank.rst")
    (Sample.world [("/docs/blank.rst", Sample.blank_marker)] [])
  = (Ok (Some " "), Sample.world [("/docs/blank.rst", Sample.blank_marker)] [])
  /\ Re.match_man_page ":man_page:" = None
  /\ (forall x, Re.match_man_page (":man_page:" +:+ String x EmptyString)
                = None).
Proof.
  apply (file_man_page_name_blank (PathOps.of_str "/docs/blank.rst")
           Sample.blank_marker [] " " " " " " ["Title"]).
  - vm_compute. reflexivity.
  - vm_compute. reflexivity.
  - constructor.
  - reflexivity.
  - reflexivity.
  - reflexivity.
  - reflexivity.
Defined.

(** ** The analytics injector on other contexts *)

(** X7: when the injector returns, every key of the context other than
    "metatags" has the value it had, and no key is removed. *)
Theorem add_ga_javascript_other_keys app pagename templatename
    (context context' : gmap string PyVal) w w' :
  add_ga_javascript app pagename templatename context w = (Ok context', w') ->
  w' = w
  /\ (forall k, k <> "metatags" -> context' !! k = context !! k)
  /\ (forall k, is_Some (context !! k) -> is_Some (context' !! k)).
Proof.
  unfold add_ga_javascript. destruct (analytics (config app)); simpl.
  - destruct (default _ _) as [s| |]; [|done..].
    intros [= <- <-]. split_and!; [done| |].
    + intros k Hk. by rewrite lookup_insert_ne.
    + intros k Hk. destruct (decide (k = "metatags")) as [->|Hne].
      * rewrite lookup_insert_eq. by eexists.
      * by rewrite lookup_insert_ne.
  - by intros [= <- <-].
Qed.

Lemma add_ga_javascript_other_keys_witness :
  Sample.world [] [] = Sample.world [] []
  /\ (forall k, k <> "metatags" ->
        (<["metatags" := PyStr (EmptyString +:+ ga_snippet)]>
           (<["title" := PyStr "bson_t"]> ∅) : gmap string PyVal) !! k
        = (<["title" := PyStr "bson_t"]> ∅ : gmap string PyVal) !! k)
  /\ (forall k,
        is_Some ((<["title" := PyStr "bson_t"]> ∅ : gmap string PyVal) !! k) ->
        is_Some ((<["metatags" := PyStr (EmptyString +:+ ga_snippet)]>
                    (<["title" := PyStr "bson_t"]> ∅) : gmap string PyVal)
                 !! k)).
Proof.
  apply (add_ga_javascript_other_keys (Sample.app true true [".rst"])
           "bson_t" "page.html" (<["title" := PyStr "bson_t"]> ∅)).
  vm_compute. reflexivity.
Defined.

(** X8: the injector does not look for the snippet in what is there: on
    a context it has already changed it appends the snippet once more. *)
Theorem add_ga_javascript_twice app pagename templatename
    (context : gmap string PyVal) prior w :
  analytics (config app) = true ->
  context !! "metatags" = Some (PyStr prior)
  \/ (context !! "metatags" = None /\ prior = EmptyString) ->
  (context' <- add_ga_javascript app pagename templatename context ;;
   add_ga_javascript app pagename templatename context') w
  = (Ok (<["metatags" := PyStr (prior +:+ ga_snippet +:+ ga_snippet)]>
           context), w).
Proof.
  intros Hga Hprior. unfold bind, add_ga_javascript. rewrite Hga. simpl.
  assert (default (PyStr EmptyString) (context !! "metatags") = PyStr prior)
    as ->.
  { by destruct Hprior as [->|[-> ->]]. }
  simpl. rewrite lookup_insert_eq. simpl.
  by rewrite insert_insert_eq, append_assoc.
Qed.

Lemma add_ga_javascript_twice_witness :
  (context' <- add_ga_javascript (Sample.app true true [".rst"]) "bson_t"
                 "page.html" ∅ ;;
   add_ga_javascript (Sample.app true true [".rst"]) "bson_t" "page.html"
     context') (Sample.world [] [])
  = (Ok (<["metatags" := PyStr (EmptyString +:+ ga_snippet +:+ ga_snippet)]>
           ∅), Sample.world [] []).
Proof.
  apply (add_ga_javascript_twice (Sample.app true true [".rst"])
           "bson_t" "page.html" ∅ EmptyString).
  - reflexivity.
  - right. split; reflexivity.
Defined.

(** ** Index pages below the top *)

Lemma endswith_slash_index d : Str.endswith (d +:+ "/index") ".index" = false.
Proof. unfold Str.endswith. rewrite rev_append. reflexivity. Qed.

Lemma slash_index_not_index d : d +:+ "/index" <> "index".
Proof.
  intros H. apply (f_equal String.length) in H.
  rewrite length_append in H. simpl in H. lia.
Qed.

(** The generator past its two guards. *)
Lemma generate_html_redirs_runs hp app page templatename
    (context : gmap string PyVal) :
  is_DirectoryHTMLBuilder (builder app) = true ->
  context !! redirect_marker = None ->
  page <> "index" ->
  Str.endswith page ".index" = false ->
  exists tmpl out msg,
    generate_html_redirs hp app page templatename context
    = (hp ("redirect-for-" +:+ page)
          (<["target" := PyStr page]> (<[redirect_marker := PyInt 1]> ∅))
          tmpl out ;;;
       log_debug msg).
Proof.
  intros Hb Hctx Hpage Hend. unfold generate_html_redirs.
  rewrite Hb, Hend. rewrite bool_decide_eq_false_2.
  2:{ rewrite Hctx. by intros [? [=]]. }
  apply String.eqb_neq in Hpage. rewrite Hpage. cbn [negb orb].
  by do 3 eexists.
Qed.

(** X9: the guard for index pages tests the name "index" and the ending
    ".index"; a page [d/index] passes it.  Under the directory-style
    builder and without the marker the generator writes a redirect for
    such a page, whose context targets the page. *)
Theorem generate_html_redirs_nested_index app d templatename
    (context : gmap string PyVal) w :
  is_DirectoryHTMLBuilder (builder app) = true ->
  context !! redirect_marker = None ->
  exists redirect msg,
    generate_html_redirs Framework.write_page app (d +:+ "/index")
      templatename context w
    = (Ok tt,
       mkWorld (fs w) (environ w) (man_pages w) (stdout w)
         (debug_log w ++ [msg]) (written w ++ [redirect]))
    /\ pw_pagename redirect = "redirect-for-" +:+ d +:+ "/index"
    /\ pw_context redirect !! "target" = Some (PyStr (d +:+ "/index"))
    /\ is_Some (pw_context redirect !! redirect_marker).
Proof.
  intros Hb Hctx.
  destruct (generate_html_redirs_runs Framework.write_page app
              (d +:+ "/index") templatename context Hb Hctx
              (slash_index_not_index d) (endswith_slash_index d))
    as (tmpl & out & msg & ->).
  eexists _, msg. split_and!; [reflexivity|done| |].
  - simpl. by rewrite lookup_insert_eq.
  - apply redirect_context_marked.
Qed.

Lemma generate_html_redirs_nested_index_witness :
  exists redirect msg,
    generate_html_redirs Framework.write_page
      (Sample.app true false [".rst"]) ("guide" +:+ "/index")
      "page.html" ∅ (Sample.world [] [])
    = (Ok tt,
       mkWorld ∅ ∅ [] [] ([] ++ [msg]) ([] ++ [redirect]))
    /\ pw_pagename redirect = "redirect-for-" +:+ "guide" +:+ "/index"
    /\ pw_context redirect !! "target" = Some (PyStr ("guide" +:+ "/index"))
    /\ is_Some (pw_context redirect !! redirect_marker).
Proof.
  apply (generate_html_redirs_nested_index (Sample.app true false [".rst"])
           "guide" "page.html" ∅ (Sample.world [] [])).
  - reflexivity.
  - reflexivity.
Defined.

(** ** The files the collector goes through *)







